(** * simplestruct: Struct, its metaclass and field descriptors

    A shallow embedding of [simplestruct/struct.py] (the Field descriptor,
    the MetaStruct type builder and the Struct instance protocol) together
    with the sequence validator exercised by the test files, followed by the
    properties of the specification that were checked against it. *)

From Stdlib Require Import ZArith String List Permutation Lia Bool.
From stdpp Require Import base option list gmap strings pretty.

Local Set Warnings "-register-all".
Local Open Scope Z_scope.
Local Open Scope string_scope.
Local Open Scope list_scope.

(** ** Python values, exceptions and the builtins the module relies on *)

Module Py.

(** The values stored in fields.  Lists are the unhashable container, tuples
    the hashable one; a bool is an int for [==] and [hash].  Floats and
    instances of user classes are left out: [==] is reflexive on the values
    here, as it is not on a NaN, and the properties of Struct that need a
    value to be equal to itself take that as a hypothesis. *)
Inductive value : Type :=
| VNone
| VBool (b : bool)
| VInt (n : Z)
| VStr (s : string)
| VTuple (items : list value)
| VList (items : list value).

Inductive exn : Type :=
| AttributeError (msg : string)
| TypeError (msg : string)
| KeyError (key : string).

(** A computation either returns or raises. *)
Inductive result (A : Type) : Type :=
| Ok (a : A)
| Raise (e : exn).
Arguments Ok {A} a.
Arguments Raise {A} e.

#[export] Instance result_ret : MRet result := fun A a => Ok a.
#[export] Instance result_bind : MBind result := fun A B k r =>
  match r with
  | Ok a => k a
  | Raise e => Raise e
  end.
#[export] Instance result_fmap : FMap result := fun A B g r =>
  match r with
  | Ok a => Ok (g a)
  | Raise e => Raise e
  end.

(** A generator consumed by [tuple], [reduce] or a comprehension: the items
    are produced left to right and the first exception ends the iteration. *)
Fixpoint collect {A B : Type} (g : A -> result B) (xs : list A) : result (list B) :=
  match xs with
  | [] => Ok []
  | x :: xs' => y ← g x; ys ← collect g xs'; Ok (y :: ys)
  end.

(** [a == b] on the values above. *)
Fixpoint py_eq (a b : value) : bool :=
  match a, b with
  | VNone, VNone => true
  | VBool x, VBool y => Bool.eqb x y
  | VBool x, VInt n => Z.eqb (Z.b2z x) n
  | VInt n, VBool y => Z.eqb n (Z.b2z y)
  | VInt n, VInt m => Z.eqb n m
  | VStr s, VStr t => String.eqb s t
  | VTuple xs, VTuple ys
  | VList xs, VList ys =>
      (fix items (xs ys : list value) : bool :=
         match xs, ys with
         | [], [] => true
         | x :: xs', y :: ys' => py_eq x y && items xs' ys'
         | _, _ => false
         end) xs ys
  | _, _ => false
  end.

(** Truth value of an object, as tested by [if]. *)
Definition truthy (v : value) : bool :=
  match v with
  | VNone => false
  | VBool b => b
  | VInt n => negb (Z.eqb n 0)
  | VStr s => negb (String.eqb s "")
  | VTuple xs | VList xs => negb (Nat.eqb (length xs) 0)
  end.

(** *** [hash]

    Hash values are machine words of 64 bits read as signed integers.
    Integers follow the reduction modulo [2^61 - 1] of the numeric tower;
    tuples use the xxHash-style combination of CPython 3.8 and later; the
    string hash is the FNV variant with an all-zero salt (string hashes are
    salted per process, so this is one admissible run); lists are
    unhashable.  No theorem below depends on the particular numbers. *)

Definition word (x : Z) : Z := x mod 2 ^ 64.
Definition signed (x : Z) : Z := if Z.ltb x (2 ^ 63) then x else x - 2 ^ 64.
Definition not_minus_one (h : Z) : Z := if Z.eqb h (-1) then -2 else h.

Definition hash_modulus : Z := 2 ^ 61 - 1.

Definition hash_int (n : Z) : Z :=
  not_minus_one (Z.sgn n * (Z.abs n mod hash_modulus)).

Definition hash_none : Z := 4238894112.

Definition hash_str (s : string) : Z :=
  match s with
  | EmptyString => 0
  | String c _ =>
      let codes := map (fun a => Z.of_nat (Ascii.nat_of_ascii a)) (list_ascii_of_string s) in
      let x0 := word (Z.shiftl (Z.of_nat (Ascii.nat_of_ascii c)) 7) in
      let x := fold_left (fun x p => Z.lxor (word (1000003 * x)) p) codes x0 in
      not_minus_one (signed (Z.lxor x (Z.of_nat (String.length s))))
  end.

Definition xxprime_1 : Z := 11400714785074694791.
Definition xxprime_2 : Z := 14029467366897019727.
Definition xxprime_5 : Z := 2870177450012600261.
Definition xxrotate (x : Z) : Z := word (Z.lor (Z.shiftl x 31) (Z.shiftr x 33)).

Definition hash_tuple (lanes : list Z) : Z :=
  let acc := fold_left
    (fun acc lane => word (xxrotate (word (acc + word lane * xxprime_2)) * xxprime_1))
    lanes xxprime_5 in
  let acc := word (acc + Z.lxor (Z.of_nat (length lanes)) (Z.lxor xxprime_5 3527539)) in
  if Z.eqb acc (2 ^ 64 - 1) then 1546275796 else signed acc.

Fixpoint py_hash (v : value) : result Z :=
  match v with
  | VNone => Ok hash_none
  | VBool b => Ok (hash_int (Z.b2z b))
  | VInt n => Ok (hash_int n)
  | VStr s => Ok (hash_str s)
  | VTuple xs =>
      hash_tuple <$>
        (fix lanes (xs : list value) : result (list Z) :=
           match xs with
           | [] => Ok []
           | x :: xs' => h ← py_hash x; hs ← lanes xs'; Ok (h :: hs)
           end) xs
  | VList _ => Raise (TypeError "unhashable type: 'list'")
  end.

(** *** OrderedDict and Counter

    Both keep their keys in order of first insertion; assigning to a key
    that is already present replaces its value in place. *)

Definition OrderedDict (V : Type) : Type := list (string * V).

Fixpoint od_set {V : Type} (k : string) (v : V) (d : OrderedDict V) : OrderedDict V :=
  match d with
  | [] => [(k, v)]
  | (k', v') :: d' =>
      if String.eqb k k' then (k, v) :: d' else (k', v') :: od_set k v d'
  end.

Fixpoint od_get {V : Type} (k : string) (d : OrderedDict V) : option V :=
  match d with
  | [] => None
  | (k', v') :: d' => if String.eqb k k' then Some v' else od_get k d'
  end.

(** [Counter(keys)]: a missing key counts zero. *)
Definition count_of (k : string) (c : OrderedDict nat) : nat :=
  default 0%nat (od_get k c).

Definition Counter (keys : list string) : OrderedDict nat :=
  fold_left (fun c k => od_set k (S (count_of k c)) c) keys [].

(** [sep.join(parts)] *)
Definition join (sep : string) (parts : list string) : string :=
  String.concat sep parts.

End Py.
Export Py.

(** ** Field descriptors and classes *)

(** What a class of descriptors provides: [Field] itself or a subclass that
    overrides [__set__] (to restrict or coerce the value before it is
    stored), [eq] or [hash]. *)
Record FieldClass : Type := {
  fc_name : string;
  fc_coerce : value -> result value;
  fc_eq : value -> value -> bool;
  fc_hash : value -> result Z
}.

(** A descriptor object.  [fid] is the identity of the object.  [name] is
    [None] in Python until the type builder binds it; nothing reads the name
    of an unbound descriptor ([copy] starts from scratch), and the empty
    string stands for it here. *)
Record Field : Type := {
  fid : nat;
  name : string;
  fclass : FieldClass
}.

(** The next free object identity. *)
Definition heap : Type := nat.

(** [Field.__init__] on a freshly allocated object. *)
Definition Field_init (k : FieldClass) (h : heap) : Field * heap :=
  ({| fid := h; name := ""; fclass := k |}, S h).

(** [Field.copy]: [type(self)()], a fresh descriptor of the class of [self]
    (a subclass whose constructor takes arguments passes its own on). *)
Definition Field_copy (self : Field) (h : heap) : Field * heap :=
  Field_init (fclass self) h.

(** [Field.eq] and [Field.hash]: [==] and [hash] on the values above. *)
Definition Field_eq (val1 val2 : value) : bool := py_eq val1 val2.
Definition Field_hash (val : value) : result Z := py_hash val.

(** The class [Field] itself. *)
Definition Field_class : FieldClass :=
  {| fc_name := "Field"; fc_coerce := Ok; fc_eq := Field_eq; fc_hash := Field_hash |}.

(** A user [__init__]: from the call's positional and keyword arguments and
    the instance [__dict__] left by [__new__] to the [__dict__] it leaves
    behind, unless it raises. *)
Definition init_hook : Type :=
  list value -> gmap string value -> gmap string value -> result (gmap string value).

(** What a name of a class body can be bound to. *)
Inductive attr : Type :=
| AFieldClass (k : FieldClass)
| AField (f : Field)
| AValue (v : value)
| AFunction (h : init_hook).

Definition attr_truthy (a : attr) : bool :=
  match a with
  | AValue v => truthy v
  | _ => true
  end.

(** One class of a method resolution order: its identity and the
    attributes of its own body. *)
Record ClassEntry : Type := {
  ce_id : nat;
  ce_name : string;
  ce_dict : OrderedDict attr
}.

Record Class : Type := {
  cls_id : nat;
  cls_name : string;
  cls_dict : OrderedDict attr;
  cls_ancestors : list ClassEntry;
  is_MetaStruct : bool;
  _struct : list Field;
  _signature : list string
}.

Definition cls_entry (c : Class) : ClassEntry :=
  {| ce_id := cls_id c; ce_name := cls_name c; ce_dict := cls_dict c |}.

Definition __mro__ (c : Class) : list ClassEntry := cls_entry c :: cls_ancestors c.

(** [issubclass(c, d)] *)
Definition issubclass (c d : Class) : bool :=
  existsb (fun e => Nat.eqb (ce_id e) (cls_id d)) (__mro__ c).

(** Attribute lookup on a class: the first class of the resolution order
    whose body binds the name. *)
Fixpoint mro_lookup (k : string) (mro : list ClassEntry) : option attr :=
  match mro with
  | [] => None
  | e :: mro' =>
      match od_get k (ce_dict e) with
      | Some a => Some a
      | None => mro_lookup k mro'
      end
  end.

Definition class_getattr (c : Class) (k : string) : result attr :=
  match mro_lookup k (__mro__ c) with
  | Some a => Ok a
  | None => Raise (AttributeError k)
  end.

(** The truth value of the class attribute [_immutable]. *)
Definition _immutable (c : Class) : result bool :=
  attr_truthy <$> class_getattr c "_immutable".

(** [object.__init__] when [__new__] is overridden: arguments are ignored. *)
Definition object_init : init_hook := fun _ _ d => Ok d.

Definition class_init (c : Class) : init_hook :=
  match mro_lookup "__init__" (__mro__ c) with
  | Some (AFunction h) => h
  | Some _ => fun _ _ _ => Raise (TypeError "object is not callable")
  | None => object_init
  end.

(** The class [object]. *)
Definition object_ : Class :=
  {| cls_id := 0; cls_name := "object"; cls_dict := []; cls_ancestors := [];
     is_MetaStruct := false; _struct := []; _signature := [] |}.

(** *** Linearisation of the bases, as [type.__new__] computes it *)

Definition in_tail (c : ClassEntry) (s : list ClassEntry) : bool :=
  existsb (fun e => Nat.eqb (ce_id e) (ce_id c)) (tail s).

Fixpoint mro_candidate (heads all : list (list ClassEntry)) : option ClassEntry :=
  match heads with
  | [] => None
  | [] :: rest => mro_candidate rest all
  | (c :: _) :: rest =>
      if forallb (fun s => negb (in_tail c s)) all then Some c
      else mro_candidate rest all
  end.

Definition mro_drop (c : ClassEntry) (s : list ClassEntry) : list ClassEntry :=
  match s with
  | e :: s' => if Nat.eqb (ce_id e) (ce_id c) then s' else s
  | [] => []
  end.

Definition nonempty {A : Type} (s : list A) : bool :=
  match s with
  | [] => false
  | _ => true
  end.

Fixpoint mro_merge (fuel : nat) (seqs : list (list ClassEntry)) : option (list ClassEntry) :=
  match List.filter nonempty seqs with
  | [] => Some []
  | live =>
      match fuel with
      | O => None
      | S fuel' =>
          match mro_candidate live live with
          | None => None
          | Some c => cons c <$> mro_merge fuel' (map (mro_drop c) live)
          end
      end
  end.

Definition has_dup_ids (ids : list nat) : bool :=
  negb (Nat.eqb (length (List.nodup Nat.eq_dec ids)) (length ids)).

(** [type.__new__(mcls, clsname, bases, dict)] for [mcls = MetaStruct]: a new
    class object whose resolution order is the merge of those of its bases;
    no bases means [object]. *)
Definition type_new (clsname : string) (bases : list Class)
    (dict : OrderedDict attr) (h : heap) : result Class * heap :=
  let bases' := match bases with [] => [object_] | _ => bases end in
  if has_dup_ids (map cls_id bases') then
    (Raise (TypeError "duplicate base class"), h)
  else
    let seqs := map __mro__ bases' ++ [map cls_entry bases'] in
    match mro_merge (S (length (concat seqs))) seqs with
    | None =>
        (Raise (TypeError "Cannot create a consistent method resolution order (MRO)"), h)
    | Some anc =>
        (Ok {| cls_id := h; cls_name := clsname; cls_dict := dict;
               cls_ancestors := anc; is_MetaStruct := true;
               _struct := []; _signature := [] |}, S h)
    end.

(** ** Instances *)

(** An instance: its class, its [__dict__] restricted to field values, and
    the flag [_initialized] that [Struct.__new__] and the metaclass keep in
    it (field names are attribute names other than that flag). *)
Record Instance : Type := {
  inst_class : Class;
  inst_dict : gmap string value;
  _initialized : bool
}.

Definition set_dict (inst : Instance) (d : gmap string value) : Instance :=
  {| inst_class := inst_class inst; inst_dict := d; _initialized := _initialized inst |}.

Definition set_initialized (inst : Instance) (b : bool) : Instance :=
  {| inst_class := inst_class inst; inst_dict := inst_dict inst; _initialized := b |}.

(** [isinstance(inst, c)] *)
Definition isinstance (inst : Instance) (c : Class) : bool :=
  issubclass (inst_class inst) c.

(** [Field.__get__(self, inst, owner)]; [inst] is [None] when the attribute
    is read on the class. *)
Definition Field_get (self : Field) (inst : option Instance) : result value :=
  match inst with
  | None => Raise (AttributeError "Cannot retrieve field from class")
  | Some inst =>
      match inst_dict inst !! name self with
      | Some v => Ok v
      | None => Raise (KeyError (name self))
      end
  end.

(** [Field.__set__(self, inst, value)] *)
Definition Field_set (self : Field) (inst : Instance) (val : value) : result Instance :=
  imm ← _immutable (inst_class inst);
  if imm && _initialized inst then Raise (AttributeError "Struct is immutable")
  else Ok (set_dict inst (<[name self := val]> (inst_dict inst))).

(** [getattr(inst, f.name)] and [setattr(inst, f.name, val)] go through the
    descriptor bound under that name; a subclass of [Field] treats the value
    first and then defers to [Field.__set__]. *)
Definition getattr (inst : Instance) (f : Field) : result value :=
  Field_get f (Some inst).

Definition setattr (inst : Instance) (f : Field) (val : value) : result Instance :=
  val' ← fc_coerce (fclass f) val;
  Field_set f inst val'.

(** ** MetaStruct *)

(** [MetaStruct.__prepare__] *)
Definition MetaStruct_prepare (clsname : string) (bases : list Class) : OrderedDict attr := [].

(** The right-hand side of an assignment of a class body: a call [K()]
    creating a descriptor of class [K], or an object that exists already
    (the class [Field] itself, a constant, a function, a descriptor). *)
Inductive rhs : Type :=
| New (k : FieldClass)
| Val (a : attr).

(** Running the assignments of a class body in the prepared namespace. *)
Fixpoint exec_body (body : list (string * rhs)) (ns : OrderedDict attr) (h : heap)
    : OrderedDict attr * heap :=
  match body with
  | [] => (ns, h)
  | (x, New k) :: body' =>
      let '(f, h') := Field_init k h in exec_body body' (od_set x (AField f) ns) h'
  | (x, Val a) :: body' => exec_body body' (od_set x a ns) h
  end.

(** The loop of [MetaStruct.__new__] over [namespace.items()]: the fields
    found, in order, and the namespace with each of them replaced by its
    named copy. *)
Fixpoint gather (items : list (string * attr)) (h : heap)
    : list Field * OrderedDict attr * heap :=
  match items with
  | [] => ([], [], h)
  | (fname, f) :: items' =>
      let '(f, h) :=
        match f with
        | AFieldClass k => let '(o, h') := Field_init k h in (AField o, h')
        | _ => (f, h)
        end in
      match f with
      | AField o =>
          let '(c, h) := Field_copy o h in
          let c := {| fid := fid c; name := fname; fclass := fclass c |} in
          let '(fields, ns, h) := gather items' h in
          (c :: fields, (fname, AField c) :: ns, h)
      | _ =>
          let '(fields, ns, h) := gather items' h in
          (fields, (fname, f) :: ns, h)
      end
  end.

(** The fields of the bases, gathered when [_inherit_fields] is true. *)
Definition inherited_fields (bases : list Class) : list Field :=
  flat_map (fun b => if is_MetaStruct b then _struct b else []) bases.

(** [collided = [k for k in fnames if fnames[k] > 1]] *)
Definition collided_names (fnames : OrderedDict nat) : list string :=
  List.filter (fun k => Nat.ltb 1 (count_of k fnames)) (map fst fnames).

(** [MetaStruct.__new__(mcls, clsname, bases, namespace)] *)
Definition MetaStruct_new (clsname : string) (bases : list Class)
    (namespace : OrderedDict attr) (h : heap) : result Class * heap :=
  let inherited :=
    if attr_truthy (default (AValue (VBool false)) (od_get "_inherit_fields" namespace))
    then inherited_fields bases else [] in
  let '(own, namespace, h) := gather namespace h in
  let fields := inherited ++ own in
  let fnames := Counter (map name fields) in
  let collided := collided_names fnames in
  if Nat.ltb 0 (length collided) then
    (Raise (AttributeError
       ("Struct " +:+ clsname +:+ " has colliding field name(s): " +:+ join ", " collided)), h)
  else
    match type_new clsname bases namespace h with
    | (Ok cls, h) =>
        (Ok {| cls_id := cls_id cls; cls_name := cls_name cls; cls_dict := cls_dict cls;
               cls_ancestors := cls_ancestors cls; is_MetaStruct := is_MetaStruct cls;
               _struct := fields; _signature := map name fields |}, h)
    | (Raise e, h) => (Raise e, h)
    end.

(** A class statement: prepare the namespace, run the body, call the
    metaclass. *)
Definition class_stmt (clsname : string) (bases : list Class)
    (body : list (string * rhs)) (h : heap) : result Class * heap :=
  let '(namespace, h) := exec_body body (MetaStruct_prepare clsname bases) h in
  MetaStruct_new clsname bases namespace h.

(** ** Struct *)

(** [Signature.bind] applied to [args] and [kargs], for positional-or-keyword parameters
    without defaults. *)
Fixpoint Signature_bind (params : list string) (args : list value)
    (kargs : gmap string value) (bound : gmap string value) : result (gmap string value) :=
  match params, args with
  | p :: params', a :: args' =>
      match kargs !! p with
      | Some _ => Raise (TypeError "multiple values for argument")
      | None => Signature_bind params' args' kargs (<[p := a]> bound)
      end
  | [], _ :: _ => Raise (TypeError "too many positional arguments")
  | p :: params', [] =>
      match kargs !! p with
      | Some v => Signature_bind params' [] (delete p kargs) (<[p := v]> bound)
      | None => Raise (TypeError "missing a required argument")
      end
  | [], [] =>
      if decide (kargs = ∅) then Ok bound
      else Raise (TypeError "got an unexpected keyword argument")
  end.

(** The loop of [Struct.__new__] writing each bound argument through its
    descriptor. *)
Fixpoint set_fields (fields : list Field) (arguments : gmap string value)
    (inst : Instance) : result Instance :=
  match fields with
  | [] => Ok inst
  | f :: fields' =>
      match arguments !! name f with
      | Some v => inst' ← setattr inst f v; set_fields fields' arguments inst'
      | None => Raise (KeyError (name f))
      end
  end.

(** The interpreter binding the arguments of a call to the parameters of a
    function written in Python with a first parameter [p], then the starred
    and the double-starred one: [p] takes the object the call passes first,
    so that a keyword named [p] is refused, before the body of the function
    is entered.  (The text is that of Python 3.3 to 3.9; later versions put
    the name of the class before that of the function.) *)
Definition bind_first (fname p : string) (kargs : gmap string value) : result unit :=
  match kargs !! p with
  | Some _ =>
      Raise (TypeError (fname +:+ "() got multiple values for argument '" +:+ p +:+ "'"))
  | None => Ok tt
  end.

(** [Struct.__new__] applied to [cls], [args] and [kargs]; its first
    parameter is named [cls]. *)
Definition Struct_new (cls : Class) (args : list value) (kargs : gmap string value)
    : result Instance :=
  bind_first "__new__" "cls" kargs;;
  let inst := {| inst_class := cls; inst_dict := ∅; _initialized := false |} in
  match boundargs ← Signature_bind (_signature cls) args kargs ∅;
        set_fields (_struct cls) boundargs inst with
  | Raise (TypeError _) => Raise (TypeError ("Error constructing " +:+ cls_name cls))
  | r => r
  end.

(** [type.__call__], which is not written in Python and takes any keyword:
    [__new__], then [__init__] with the same arguments. *)
Definition type_call (cls : Class) (args : list value) (kargs : gmap string value)
    : result Instance :=
  inst ← Struct_new cls args kargs;
  d ← class_init cls args kargs (inst_dict inst);
  Ok (set_dict inst d).

(** [MetaStruct.__call__]: the ordinary constructor of a Struct type; its
    first parameter is named [mcls]. *)
Definition MetaStruct_call (cls : Class) (args : list value) (kargs : gmap string value)
    : result Instance :=
  bind_first "__call__" "mcls" kargs;;
  inst ← type_call cls args kargs;
  Ok (set_initialized inst true).

(** [hash_seq(seq)] *)
Definition hash_seq (seq : list Z) : Z :=
  fold_left (fun x y => Z.lxor x y) seq 0.

(** What [__eq__] returns. *)
Inductive eq_answer : Type :=
| NotImplemented
| Answer (b : bool).

(** Comparison of two tuples of descriptors: [Field] defines no [__eq__], so
    the items are compared by identity. *)
Fixpoint struct_eqb (s1 s2 : list Field) : bool :=
  match s1, s2 with
  | [], [] => true
  | f1 :: s1', f2 :: s2' => Nat.eqb (fid f1) (fid f2) && struct_eqb s1' s2'
  | _, _ => false
  end.

(** [all(f.eq(getattr(self, f.name), getattr(other, f.name)) for f in ...)] *)
Fixpoint all_fields_eq (fields : list Field) (self other : Instance) : result bool :=
  match fields with
  | [] => Ok true
  | f :: fields' =>
      v1 ← getattr self f;
      v2 ← getattr other f;
      if fc_eq (fclass f) v1 v2 then all_fields_eq fields' self other else Ok false
  end.

(** [Struct.__eq__(self, other)] for [other] an instance of a Struct type. *)
Definition Struct_eq (self other : Instance) : result eq_answer :=
  if negb (isinstance self (inst_class other)) then Ok NotImplemented
  else if negb (struct_eqb (_struct (inst_class self)) (_struct (inst_class other)))
  then Ok (Answer false)
  else Answer <$> all_fields_eq (_struct (inst_class self)) self other.

(** The generator [f.hash(getattr(self, f.name)) for f in self._struct]. *)
Definition field_hashes (self : Instance) : result (list Z) :=
  collect (fun f => v ← getattr self f; fc_hash (fclass f) v) (_struct (inst_class self)).

(** [Struct.__hash__(self)] *)
Definition Struct_hash (self : Instance) : result Z :=
  imm ← _immutable (inst_class self);
  if negb imm then
    Raise (TypeError ("Cannot hash mutable Struct " +:+ cls_name (inst_class self)))
  else if negb (_initialized self) then
    Raise (TypeError ("Cannot hash uninitialized Struct " +:+ cls_name (inst_class self)))
  else hash_seq <$> field_hashes self.

(** [Struct.__len__] and [Struct.__iter__] *)
Definition Struct_len (self : Instance) : nat := length (_struct (inst_class self)).

Definition Struct_iter (self : Instance) : result (list value) :=
  collect (getattr self) (_struct (inst_class self)).

(** [Struct.__reduce_ex__(self, protocol)] *)
Definition Struct_reduce_ex (self : Instance) : result (Class * list value) :=
  vals ← collect (getattr self) (_struct (inst_class self));
  Ok (inst_class self, vals).


(** [Struct._asdict(self)] *)
Definition Struct_asdict (self : Instance) : result (OrderedDict value) :=
  items ← collect (fun f => v ← getattr self f; Ok (name f, v)) (_struct (inst_class self));
  Ok (fold_left (fun d kv => od_set (fst kv) (snd kv) d) items []).

(** [Struct._replace] applied to [self] and [kargs]; its first parameter is
    named [self]. *)
Definition Struct_replace (self : Instance) (kargs : gmap string value) : result Instance :=
  bind_first "_replace" "self" kargs;;
  items ← collect (fun f => v ← getattr self f; Ok (name f, v)) (_struct (inst_class self));
  let fields := fold_left (fun d kv => <[fst kv := snd kv]> d) items (∅ : gmap string value) in
  let fields := kargs ∪ fields in
  MetaStruct_call (inst_class self) [] fields.

(** [Struct._fmt_helper(self, fmt)]: [fmt] is [str] for [__str__] and [repr]
    for [__repr__]. *)
Definition Struct_fmt_helper (self : Instance) (fmt : value -> string) : result string :=
  parts ← collect (fun f => v ← getattr self f; Ok (name f +:+ "=" +:+ fmt v))
                  (_struct (inst_class self));
  Ok (cls_name (inst_class self) +:+ "(" +:+ join ", " parts +:+ ")").

(** The class [Struct] itself: the result of its class statement, run when
    the module is loaded ([object] is object 0).  Its methods are the
    functions [Struct_new], [Struct_eq], ... above; of its body only the
    flag matters to attribute lookup. *)
Definition Struct_body : list (string * rhs) :=
  [("_immutable", Val (AValue (VBool true)))].

Definition Struct : Class :=
  {| cls_id := 1; cls_name := "Struct";
     cls_dict := [("_immutable", AValue (VBool true))];
     cls_ancestors := [cls_entry object_];
     is_MetaStruct := true; _struct := []; _signature := [] |}.

(** The first free identity once the module is loaded. *)
Definition heap0 : heap := 2%nat.

(** ** Typed fields and the type validator

    [simplestruct/fields.py] and [struct/type.py] are known through
    [tests/test_fields.py], [struct/test_type.py] and the specification. *)

Module Typed.

(** The classes of the values of [Py.value]. *)
Inductive pytype : Type := NoneType | bool_ | int_ | str_ | tuple_ | list_.

Definition type_name (t : pytype) : string :=
  match t with
  | NoneType => "NoneType" | bool_ => "bool" | int_ => "int"
  | str_ => "str" | tuple_ => "tuple" | list_ => "list"
  end.

Definition type_of (v : value) : pytype :=
  match v with
  | VNone => NoneType | VBool _ => bool_ | VInt _ => int_
  | VStr _ => str_ | VTuple _ => tuple_ | VList _ => list_
  end.

Definition pytype_eqb (s t : pytype) : bool :=
  match s, t with
  | NoneType, NoneType | bool_, bool_ | int_, int_
  | str_, str_ | tuple_, tuple_ | list_, list_ => true
  | _, _ => false
  end.

(** [isinstance(v, t)]: [bool] is a subclass of [int]. *)
Definition has_type (v : value) (t : pytype) : bool :=
  pytype_eqb (type_of v) t ||
  match type_of v, t with
  | bool_, int_ => true
  | _, _ => false
  end.

(** The failures of validation, one per kind of message. *)
Inductive failure : Type :=
| WrongType (expected actual : pytype)
| NotASequence (expected actual : pytype)
| SingleString (expected : pytype)
| WrongElement (expected actual : pytype) (pos : nat)
| DuplicateElement (item : value) (pos : nat).

(** Modelled from the spec: the scalar check of the Type Validator
    ([checktype], absent from the sources): the value has type [kind] or a
    subtype of it; the failure names the expected and the actual type. *)
Definition checktype (val : value) (kind : pytype) : option failure :=
  if has_type val kind then None else Some (WrongType kind (type_of val)).

(** Modelled from the spec: the per-element check of [checktype_seq] (absent
    from the sources): each element is checked against [kind] by position
    and the first failure reports the 0-based index and the type of the
    offending element. *)
Fixpoint check_items (kind : pytype) (i : nat) (items : list value) : option failure :=
  match items with
  | [] => None
  | x :: items' =>
      if has_type x kind then check_items kind (S i) items'
      else Some (WrongElement kind (type_of x) i)
  end.

(** Modelled from the spec: the duplicate scan of [checktype_seq] (absent
    from the sources): scan for the first element equal to one seen before
    and report its value and its position, that of the second occurrence. *)
Fixpoint first_duplicate (seen : list value) (i : nat) (items : list value)
    : option (value * nat) :=
  match items with
  | [] => None
  | x :: items' =>
      if existsb (fun s => py_eq s x) seen then Some (x, i)
      else first_duplicate (seen ++ [x]) (S i) items'
  end.

(** Modelled from the spec: [checktype_seq] (absent from the sources): the
    value must be a genuine sequence container, a string does not count as
    a sequence of characters, every element has type [kind], and with
    [nodups] no element is repeated.  Returns the items on success. *)
Definition checktype_seq (seq : value) (kind : pytype) (nodups : bool)
    : list value + failure :=
  match seq with
  | VStr _ => inr (SingleString kind)
  | VTuple items | VList items =>
      match check_items kind 0 items with
      | Some e => inr e
      | None =>
          if nodups then
            match first_duplicate [] 0 items with
            | Some (x, i) => inr (DuplicateElement x i)
            | None => inl items
            end
          else inl items
      end
  | _ => inr (NotASequence kind (type_of seq))
  end.

(** The configuration of a typed field. *)
Record TypedField : Type := {
  kind : pytype;
  seq : bool;
  nodups : bool;
  opt : bool
}.

(** Modelled from the spec: the write-time validation of a Typed Field
    ([TypedField.__set__], absent from the sources): an optional field
    accepts [None] as it is; a scalar field checks the type; a sequence
    field validates the sequence and stores an immutable snapshot of it. *)
Definition validate (cfg : TypedField) (val : value) : value + failure :=
  match opt cfg, val with
  | true, VNone => inl VNone
  | _, _ =>
      if seq cfg then
        match checktype_seq val (kind cfg) (nodups cfg) with
        | inl items => inl (VTuple items)
        | inr e => inr e
        end
      else
        match checktype val (kind cfg) with
        | None => inl val
        | Some e => inr e
        end
  end.

(** [repr] of the values whose text is fixed: strings are quoted without
    escapes, which is their [repr] when they hold plain characters only. *)
Fixpoint repr (v : value) : string :=
  match v with
  | VNone => "None"
  | VBool true => "True"
  | VBool false => "False"
  | VInt n => pretty n
  | VStr s => "'" +:+ s +:+ "'"
  | VTuple [x] => "(" +:+ repr x +:+ ",)"
  | VTuple xs => "(" +:+ join ", " (map repr xs) +:+ ")"
  | VList xs => "[" +:+ join ", " (map repr xs) +:+ "]"
  end.

(** The text of the [TypeError] of each failure, as the tests match it. *)
Definition message (e : failure) : string :=
  match e with
  | WrongType t a => "Expected " +:+ type_name t +:+ "; got " +:+ type_name a
  | NotASequence t a =>
      "Expected sequence of " +:+ type_name t +:+ "; got " +:+ type_name a
      +:+ " instead of sequence"
  | SingleString t =>
      "Expected sequence of " +:+ type_name t
      +:+ "; got single str (strings do not count as character sequences)"
  | WrongElement t a i =>
      "Expected sequence of " +:+ type_name t +:+ "; got sequence with "
      +:+ type_name a +:+ " at position " +:+ pretty i
  | DuplicateElement x i =>
      "Duplicate element " +:+ repr x +:+ " at position " +:+ pretty i
  end.

(** Modelled from the spec: the class of descriptors of a configuration
    ([TypedField], absent from the sources): validation on write, the
    comparison and hash of [Field]. *)
Definition TypedField_class (cfg : TypedField) : FieldClass :=
  {| fc_name := "TypedField";
     fc_coerce := fun val =>
       match validate cfg val with
       | inl v => Ok v
       | inr e => Raise (TypeError (message e))
       end;
     fc_eq := Field_eq;
     fc_hash := Field_hash |}.

End Typed.

(** ** Some Struct types, declared one after the other *)

(** The class a class statement leaves behind ([object] if it raised). *)
Definition declared (r : result Class * heap) : Class :=
  match fst r with
  | Ok c => c
  | Raise _ => object_
  end.

(** [class Point(Struct): x = Field(); y = Field()] *)
Definition Point_stmt : result Class * heap :=
  class_stmt "Point" [Struct] [("x", New Field_class); ("y", New Field_class)] heap0.
Definition Point : Class := Eval lazy -[Field_class] in declared Point_stmt.

(** [class Point3(Point): _inherit_fields = True; z = Field()] *)
Definition Point3_stmt : result Class * heap :=
  class_stmt "Point3" [Point]
    [("_inherit_fields", Val (AValue (VBool true))); ("z", New Field_class)] (snd Point_stmt).
Definition Point3 : Class := Eval lazy -[Field_class] in declared Point3_stmt.

(** [class Alias(Point): _inherit_fields = True] *)
Definition Alias_stmt : result Class * heap :=
  class_stmt "Alias" [Point] [("_inherit_fields", Val (AValue (VBool true)))] (snd Point3_stmt).
Definition Alias : Class := Eval lazy -[Field_class] in declared Alias_stmt.

(** [class Cell(Struct): _immutable = False; content = Field] *)
Definition Cell_stmt : result Class * heap :=
  class_stmt "Cell" [Struct]
    [("_immutable", Val (AValue (VBool false))); ("content", Val (AFieldClass Field_class))]
    (snd Alias_stmt).
Definition Cell : Class := Eval lazy -[Field_class] in declared Cell_stmt.

(** [def __init__(self, n): self.n = n + 1] *)
Definition Tally_init : init_hook := fun args kargs d =>
  let n := match args with
           | [a] => Some a
           | [] => kargs !! "n"
           | _ => None
           end in
  match n with
  | Some (VInt n) => Ok (<["n" := VInt (n + 1)]> d)
  | Some (VBool b) => Ok (<["n" := VInt (Z.b2z b + 1)]> d)
  | _ => Raise (TypeError "unsupported operand type(s) for +")
  end.

(** [class Tally(Struct): n = Field()] with the [__init__] above. *)
Definition Tally_stmt : result Class * heap :=
  class_stmt "Tally" [Struct]
    [("n", New Field_class); ("__init__", Val (AFunction Tally_init))] (snd Cell_stmt).
Definition Tally : Class := Eval lazy -[Field_class Tally_init] in declared Tally_stmt.

(** [class Left(Struct): pass] and [class Right(Struct): pass] *)
Definition Left_stmt : result Class * heap := class_stmt "Left" [Struct] [] (snd Tally_stmt).
Definition Right_stmt : result Class * heap := class_stmt "Right" [Struct] [] (snd Left_stmt).

(** [class Twice(Struct): x = Field(); x = Field()] *)
Definition Twice_stmt : result Class * heap :=
  class_stmt "Twice" [Struct] [("x", New Field_class); ("x", New Field_class)] (snd Right_stmt).

(** [class Clash(Point3): _inherit_fields = True; z = Field(); t = Field(); x = Field()] *)
Definition Clash_stmt : result Class * heap :=
  class_stmt "Clash" [Point3]
    [("_inherit_fields", Val (AValue (VBool true))); ("z", New Field_class);
     ("t", New Field_class); ("x", New Field_class)] (snd Twice_stmt).

(** [class Other(Point): _inherit_fields = True] *)
Definition Other_stmt : result Class * heap :=
  class_stmt "Other" [Point] [("_inherit_fields", Val (AValue (VBool true)))] (snd Clash_stmt).

(** [class Foo(Struct): bar = TypedField(int, seq=True, nodups=True)], as in
    [tests/test_fields.py]. *)
Definition int_seq_nodups : Typed.TypedField :=
  {| Typed.kind := Typed.int_; Typed.seq := true; Typed.nodups := true; Typed.opt := false |}.

Definition Foo_stmt : result Class * heap :=
  class_stmt "Foo" [Struct] [("bar", New (Typed.TypedField_class int_seq_nodups))]
    (snd Other_stmt).
Definition Foo : Class :=
  Eval lazy -[Field_class Tally_init Typed.TypedField_class int_seq_nodups] in
    declared Foo_stmt.

(** [class Flat(Point): w = Field()], which does not ask for the fields of
    its base. *)
Definition Flat_stmt : result Class * heap :=
  class_stmt "Flat" [Point] [("w", New Field_class)] (snd Foo_stmt).

(** [class Enrol(Struct): cls = Field()], a field named as the first
    parameter of [Struct.__new__] is. *)
Definition Enrol_stmt : result Class * heap :=
  class_stmt "Enrol" [Struct] [("cls", New Field_class)] (snd Flat_stmt).
Definition Enrol : Class :=
  Eval lazy -[Field_class Tally_init Typed.TypedField_class int_seq_nodups] in
    declared Enrol_stmt.

(** The descriptors of [Point]. *)
Definition Point_x : Field := {| fid := 4; name := "x"; fclass := Field_class |}.
Definition Point_y : Field := {| fid := 5; name := "y"; fclass := Field_class |}.

(** [Point(1, 2)], [Point(2, 1)] and [Point([1], 2)] once constructed. *)
Definition point_1_2 : Instance :=
  {| inst_class := Point; inst_dict := {[ "x" := VInt 1; "y" := VInt 2 ]};
     _initialized := true |}.
Definition point_2_1 : Instance :=
  {| inst_class := Point; inst_dict := {[ "x" := VInt 2; "y" := VInt 1 ]};
     _initialized := true |}.
Definition point_list : Instance :=
  {| inst_class := Point; inst_dict := {[ "x" := VList [VInt 1]; "y" := VInt 2 ]};
     _initialized := true |}.

(** [Alias(1, 2)] once constructed. *)
Definition alias_1_2 : Instance :=
  {| inst_class := Alias; inst_dict := {[ "x" := VInt 1; "y" := VInt 2 ]};
     _initialized := true |}.

(** [Cell(0)] once constructed, and [Point(1, 2)] inside [__init__]. *)
Definition cell_0 : Instance :=
  {| inst_class := Cell; inst_dict := {[ "content" := VInt 0 ]}; _initialized := true |}.
Definition point_under_construction : Instance :=
  {| inst_class := Point; inst_dict := {[ "x" := VInt 1; "y" := VInt 2 ]};
     _initialized := false |}.


(** [Enrol('math')] once constructed. *)
Definition enrol_math : Instance :=
  {| inst_class := Enrol; inst_dict := {[ "cls" := VStr "math" ]}; _initialized := true |}.

(** [Tally(1)] once constructed: its [__init__] has stored 2. *)
Definition tally_1 : Instance :=
  {| inst_class := Tally; inst_dict := {[ "n" := VInt 2 ]}; _initialized := true |}.

(** ** Vocabulary of the properties *)



(** Each field's descriptor stores its value of [vals] as it is given and
    finds it equal to itself. *)
Definition accepted_unchanged (c : Class) (vals : list value) : Prop :=
  Forall2 (fun f v => fc_coerce (fclass f) v = Ok v /\ fc_eq (fclass f) v v = true)
          (_struct c) vals.

(** The [__init__] of [c], called with these arguments, leaves the fields
    as [__new__] wrote them. *)
Definition init_keeps (c : Class) (args : list value) (kargs : gmap string value) : Prop :=
  forall d, class_init c args kargs d = Ok d.

(** What the type builder guarantees of a class: distinct field names and
    one parameter per field, in order. *)
Definition schema_ok (c : Class) : Prop :=
  List.NoDup (map name (_struct c)) /\ _signature c = map name (_struct c).

(** The truth value of [namespace.get('_inherit_fields', False)]. *)
Definition inherit_flag (namespace : OrderedDict attr) : bool :=
  attr_truthy (default (AValue (VBool false)) (od_get "_inherit_fields" namespace)).

(** The fields a class body declares, as the type builder finds them. *)
Definition own_fields (namespace : OrderedDict attr) (h : heap) : list Field :=
  fst (fst (gather namespace h)).

(** The merged schema: inherited fields, if asked for, then own fields. *)
Definition merged_fields (bases : list Class) (namespace : OrderedDict attr) (h : heap)
    : list Field :=
  (if inherit_flag namespace then inherited_fields bases else []) ++ own_fields namespace h.

(** The attributes that declare a field, and the class of the descriptor
    they declare. *)
Definition is_field (a : attr) : bool :=
  match a with
  | AFieldClass _ | AField _ => true
  | _ => false
  end.

Definition declared_class (a : attr) : option FieldClass :=
  match a with
  | AFieldClass k => Some k
  | AField o => Some (fclass o)
  | _ => None
  end.

(** The text of the error raised on colliding names. *)
Definition collision_message (clsname : string) (collided : list string) : string :=
  "Struct " +:+ clsname +:+ " has colliding field name(s): " +:+ join ", " collided.

(** No item of [l] is equal to an item before it. *)
Definition no_repeat (l : list value) : Prop :=
  forall pre y post, l = pre ++ y :: post -> existsb (fun s => py_eq s y) pre = false.

(** Induction on values that reaches the items of tuples and lists. *)
Section value_induction.
Variable P : value -> Prop.
Hypothesis HNone : P VNone.
Hypothesis HBool : forall b, P (VBool b).
Hypothesis HInt : forall n, P (VInt n).
Hypothesis HStr : forall s, P (VStr s).
Hypothesis HTuple : forall xs, Forall P xs -> P (VTuple xs).
Hypothesis HList : forall xs, Forall P xs -> P (VList xs).

Fixpoint value_nested_ind (v : value) : P v :=
  match v with
  | VNone => HNone
  | VBool b => HBool b
  | VInt n => HInt n
  | VStr s => HStr s
  | VTuple xs =>
      HTuple xs ((fix go (xs : list value) : Forall P xs :=
        match xs with
        | [] => @List.Forall_nil value P
        | x :: xs' => @List.Forall_cons value P x xs' (value_nested_ind x) (go xs')
        end) xs)
  | VList xs =>
      HList xs ((fix go (xs : list value) : Forall P xs :=
        match xs with
        | [] => @List.Forall_nil value P
        | x :: xs' => @List.Forall_cons value P x xs' (value_nested_ind x) (go xs')
        end) xs)
  end.
End value_induction.

(** * Properties *)

(** ** The builtins *)

Example py_eq_bool_int : py_eq (VBool true) (VInt 1) = true.
Proof. reflexivity. Qed.

Example hash_empty_tuple : py_hash (VTuple []) = Ok 5740354900026072187.
Proof. vm_compute. reflexivity. Qed.

Example hash_minus_one : py_hash (VInt (-1)) = Ok (-2).
Proof. reflexivity. Qed.

Example counter_order :
  Counter ["b"; "a"; "b"; "c"; "a"] = [("b", 2%nat); ("a", 2%nat); ("c", 1%nat)].
Proof. reflexivity. Qed.

Example Struct_class_stmt : class_stmt "Struct" [] Struct_body 1%nat = (Ok Struct, heap0).
Proof. reflexivity. Qed.

(** [==] is reflexive on these values (there is no NaN among them). *)
Lemma py_eq_refl (v : value) : py_eq v v = true.
Proof.
  induction v as [| b | n | s | xs IH | xs IH] using value_nested_ind; simpl.
  - reflexivity.
  - apply Bool.eqb_reflx.
  - apply Z.eqb_refl.
  - apply String.eqb_refl.
  - induction IH as [| x xs' Hx _ IHxs]; [reflexivity |].
    rewrite Hx. exact IHxs.
  - induction IH as [| x xs' Hx _ IHxs]; [reflexivity |].
    rewrite Hx. exact IHxs.
Qed.

(** ** Reading and writing fields *)

Lemma bind_Ok {A B : Type} (a : A) (k : A -> result B) : (Ok a ≫= k) = k a.
Proof. reflexivity. Qed.

Lemma bind_Raise {A B : Type} (e : exn) (k : A -> result B) : (Raise e ≫= k) = Raise e.
Proof. reflexivity. Qed.





(** ** The example types *)

Example Point_declared : Point_stmt = (Ok Point, 7%nat).
Proof. reflexivity. Qed.

Example Point_struct : _struct Point = [Point_x; Point_y].
Proof. reflexivity. Qed.

Example Point3_declared :
  fst Point3_stmt = Ok Point3 /\ map fid (_struct Point3) = [4; 5; 8]%nat
  /\ _signature Point3 = ["x"; "y"; "z"].
Proof. repeat split; reflexivity. Qed.


Example point_keywords : MetaStruct_call Point [VInt 1] {[ "y" := VInt 2 ]} = Ok point_1_2.
Proof. reflexivity. Qed.

Example point_missing :
  MetaStruct_call Point [VInt 1] ∅ = Raise (TypeError "Error constructing Point").
Proof. reflexivity. Qed.

Example point_list_constructed :
  MetaStruct_call Point [VList [VInt 1]; VInt 2] ∅ = Ok point_list.
Proof. reflexivity. Qed.

Example cell_0_constructed : MetaStruct_call Cell [VInt 0] ∅ = Ok cell_0.
Proof. reflexivity. Qed.

Example tally_1_constructed : MetaStruct_call Tally [VInt 1] ∅ = Ok tally_1.
Proof. reflexivity. Qed.

Example enrol_constructed : MetaStruct_call Enrol [VStr "math"] ∅ = Ok enrol_math.
Proof. reflexivity. Qed.

Example enrol_keyword :
  MetaStruct_call Enrol [] {[ "cls" := VStr "math" ]}
  = Raise (TypeError "__new__() got multiple values for argument 'cls'").
Proof. reflexivity. Qed.

Example point_keyword_mcls :
  MetaStruct_call Point [VInt 1; VInt 2] {[ "mcls" := VInt 0 ]}
  = Raise (TypeError "__call__() got multiple values for argument 'mcls'").
Proof. reflexivity. Qed.

Example point_keyword_cls :
  MetaStruct_call Point [VInt 1; VInt 2] {[ "cls" := VInt 0 ]}
  = Raise (TypeError "__new__() got multiple values for argument 'cls'").
Proof. reflexivity. Qed.

Example replace_keyword_self :
  Struct_replace point_1_2 {[ "self" := VInt 0 ]}
  = Raise (TypeError "_replace() got multiple values for argument 'self'").
Proof. reflexivity. Qed.


(** ** Generators *)

Lemma collect_Forall2 {A B : Type} (g : A -> result B) (xs : list A) (ys : list B) :
  collect g xs = Ok ys <-> Forall2 (fun x y => g x = Ok y) xs ys.
Proof.
  revert ys. induction xs as [| x xs IH]; intros ys; simpl.
  - split.
    + intros H. injection H as <-. constructor.
    + intros H. inversion H. reflexivity.
  - destruct (g x) as [y | e] eqn:Hx; simpl.
    + destruct (collect g xs) as [ys' | e] eqn:Hxs; simpl.
      * split.
        -- intros H. injection H as <-. constructor; [exact Hx | apply IH; reflexivity].
        -- intros H. inversion H as [| ? y0 ? ys0 Hy Hys]; subst.
           rewrite Hx in Hy. injection Hy as ->.
           apply IH in Hys. injection Hys as ->. reflexivity.
      * split; [discriminate |].
        intros H. inversion H as [| ? y0 ? ys0 Hy Hys]; subst.
        apply IH in Hys. discriminate.
    + split; [discriminate |].
      intros H. inversion H as [| ? y0 ? ys0 Hy Hys]; subst. rewrite Hx in Hy. discriminate.
Qed.



(** ** Equality *)

Lemma struct_eqb_spec (s1 s2 : list Field) :
  struct_eqb s1 s2 = true <-> map fid s1 = map fid s2.
Proof.
  revert s2. induction s1 as [| f1 s1 IH]; intros [| f2 s2]; simpl; try easy.
  rewrite andb_true_iff, Nat.eqb_eq, IH. split.
  - intros [-> ->]. reflexivity.
  - intros H. injection H as H1 H2. auto.
Qed.

Lemma struct_eqb_refl (s : list Field) : struct_eqb s s = true.
Proof. apply struct_eqb_spec. reflexivity. Qed.




(** ** Hashing *)

Lemma hash_seq_from (seq : list Z) (x : Z) :
  fold_left (fun x y => Z.lxor x y) seq x = Z.lxor x (hash_seq seq).
Proof.
  unfold hash_seq. revert x. induction seq as [| y seq IH]; intros x; cbn [fold_left].
  - rewrite Z.lxor_0_r. reflexivity.
  - rewrite (IH (Z.lxor x y)), (IH (Z.lxor 0 y)), Z.lxor_0_l, Z.lxor_assoc. reflexivity.
Qed.

Lemma hash_seq_cons (y : Z) (seq : list Z) : hash_seq (y :: seq) = Z.lxor y (hash_seq seq).
Proof. unfold hash_seq at 1. cbn [fold_left]. rewrite Z.lxor_0_l. apply hash_seq_from. Qed.













(** ** Construction *)

Lemma bind_first_None (fname p : string) (kargs : gmap string value) :
  kargs !! p = None -> bind_first fname p kargs = Ok tt.
Proof. intros H. unfold bind_first. rewrite H. reflexivity. Qed.

Lemma bind_first_Some (fname p : string) (kargs : gmap string value) :
  is_Some (kargs !! p) ->
  bind_first fname p kargs
  = Raise (TypeError (fname +:+ "() got multiple values for argument '" +:+ p +:+ "'")).
Proof. intros [v H]. unfold bind_first. rewrite H. reflexivity. Qed.









(** ** Serialization and replacement *)













Lemma Point_schema_ok : schema_ok Point.
Proof.
  split; [| reflexivity]. simpl.
  repeat constructor; simpl; intros H; repeat destruct H as [H | H]; discriminate || exact H.
Defined.







Lemma Enrol_schema_ok : schema_ok Enrol.
Proof.
  split; [| reflexivity]. simpl.
  repeat constructor; simpl; intros H; repeat destruct H as [H | H]; discriminate || exact H.
Defined.



(** ** OrderedDict and Counter *)

Lemma od_get_set_eq {V : Type} (k : string) (v : V) (d : OrderedDict V) :
  od_get k (od_set k v d) = Some v.
Proof.
  induction d as [| [k' v'] d IH]; simpl.
  - rewrite String.eqb_refl. reflexivity.
  - destruct (String.eqb k k') eqn:Hk; simpl.
    + rewrite String.eqb_refl. reflexivity.
    + rewrite Hk. exact IH.
Qed.

Lemma od_get_set_ne {V : Type} (k k' : string) (v : V) (d : OrderedDict V) :
  k <> k' -> od_get k' (od_set k v d) = od_get k' d.
Proof.
  intros Hne. induction d as [| [k0 v0] d IH]; simpl.
  - apply String.eqb_neq in Hne. rewrite String.eqb_sym, Hne. reflexivity.
  - destruct (String.eqb k k0) eqn:Hk; simpl.
    + apply String.eqb_eq in Hk. subst k0.
      assert (Hk' : String.eqb k' k = false) by (apply String.eqb_neq; congruence).
      rewrite Hk'. reflexivity.
    + destruct (String.eqb k' k0); [reflexivity | exact IH].
Qed.

Lemma od_set_keys {V : Type} (k : string) (v : V) (d : OrderedDict V) :
  map fst (od_set k v d) = if in_dec string_dec k (map fst d) then map fst d
                           else map fst d ++ [k].
Proof.
  induction d as [| [k' v'] d IH]; simpl; [reflexivity |].
  destruct (String.eqb k k') eqn:Hk.
  - apply String.eqb_eq in Hk. subst k'. simpl.
    destruct (string_dec k k); [| contradiction]. reflexivity.
  - apply String.eqb_neq in Hk. simpl. rewrite IH.
    destruct (string_dec k' k) as [Heq | Hne]; [congruence |].
    destruct (in_dec string_dec k (map fst d)); reflexivity.
Qed.

Lemma od_set_keys_NoDup {V : Type} (k : string) (v : V) (d : OrderedDict V) :
  List.NoDup (map fst d) -> List.NoDup (map fst (od_set k v d)).
Proof.
  intros Hnd. rewrite od_set_keys.
  destruct (in_dec string_dec k (map fst d)) as [Hin | Hout]; [exact Hnd |].
  apply List.NoDup_app; [exact Hnd | repeat constructor; intros [] |].
  intros a Ha [<- | []]. contradiction.
Qed.

Lemma od_set_keys_In {V : Type} (k k' : string) (v : V) (d : OrderedDict V) :
  In k' (map fst (od_set k v d)) <-> k' = k \/ In k' (map fst d).
Proof.
  rewrite od_set_keys.
  destruct (in_dec string_dec k (map fst d)) as [Hin | Hout].
  - split; [tauto |]. intros [-> | H]; assumption.
  - rewrite in_app_iff. simpl. split; intros H; intuition congruence.
Qed.

Lemma count_of_set_eq (k : string) (n : nat) (c : OrderedDict nat) :
  count_of k (od_set k n c) = n.
Proof. unfold count_of. rewrite od_get_set_eq. reflexivity. Qed.

Lemma count_of_set_ne (k k' : string) (n : nat) (c : OrderedDict nat) :
  k <> k' -> count_of k' (od_set k n c) = count_of k' c.
Proof. intros Hne. unfold count_of. rewrite od_get_set_ne by exact Hne. reflexivity. Qed.

(** What counting the keys of [keys] into a counter does to it. *)
Lemma Counter_from (keys : list string) (c : OrderedDict nat) :
  List.NoDup (map fst c) ->
  let c' := fold_left (fun c k => od_set k (S (count_of k c)) c) keys c in
  List.NoDup (map fst c')
  /\ (forall k, count_of k c' = (count_of k c + count_occ string_dec keys k)%nat)
  /\ (forall k, In k (map fst c') <-> In k (map fst c) \/ In k keys).
Proof.
  revert c. induction keys as [| x keys IH]; intros c Hnd; simpl.
  - split; [exact Hnd |]. split; [intros k; lia | intros k; tauto].
  - destruct (IH (od_set x (S (count_of x c)) c) (od_set_keys_NoDup _ _ _ Hnd))
      as (Hnd' & Hcount & Hkeys).
    split; [exact Hnd' |]. split.
    + intros k. rewrite Hcount. destruct (string_dec x k) as [-> | Hne].
      * rewrite count_of_set_eq. lia.
      * rewrite count_of_set_ne by exact Hne. lia.
    + intros k. rewrite Hkeys, od_set_keys_In. intuition congruence.
Qed.

Lemma Counter_spec (keys : list string) :
  List.NoDup (map fst (Counter keys))
  /\ (forall k, count_of k (Counter keys) = count_occ string_dec keys k)
  /\ (forall k, In k (map fst (Counter keys)) <-> In k keys).
Proof.
  destruct (Counter_from keys [] (List.NoDup_nil _)) as (Hnd & Hcount & Hkeys).
  unfold Counter. split; [exact Hnd |]. split.
  - intros k. rewrite (Hcount k). reflexivity.
  - intros k. rewrite (Hkeys k). simpl. tauto.
Qed.

(** The names reported: each name that occurs more than once, once. *)
Lemma collided_names_spec (keys : list string) :
  List.NoDup (collided_names (Counter keys))
  /\ forall k, In k (collided_names (Counter keys))
               <-> (1 < count_occ string_dec keys k)%nat.
Proof.
  destruct (Counter_spec keys) as (Hnd & Hcount & Hkeys). unfold collided_names. split.
  - apply List.NoDup_filter. exact Hnd.
  - intros k. rewrite filter_In, Hkeys, Hcount, Nat.ltb_lt. split; [tauto |].
    intros Hk. split; [| exact Hk]. apply (count_occ_In string_dec). lia.
Qed.

Lemma collided_names_nil (keys : list string) :
  collided_names (Counter keys) = [] <-> List.NoDup keys.
Proof.
  destruct (collided_names_spec keys) as [_ Hin].
  rewrite (NoDup_count_occ string_dec). split.
  - intros Hnil k. destruct (le_lt_dec (count_occ string_dec keys k) 1) as [Hle | Hlt];
      [exact Hle |].
    apply Hin in Hlt. rewrite Hnil in Hlt. destruct Hlt.
  - intros Hle. destruct (collided_names (Counter keys)) as [| k l] eqn:Hc; [reflexivity |].
    assert (Hk : In k (k :: l)) by (left; reflexivity).
    apply Hin in Hk. specialize (Hle k). lia.
Qed.

(** ** The type builder *)

Lemma gather_spec (items : list (string * attr)) (h : heap) :
  Forall2 (fun kv f => name f = fst kv /\ declared_class (snd kv) = Some (fclass f))
          (List.filter (fun kv => is_field (snd kv)) items) (own_fields items h)
  /\ Forall (fun f => (h <= fid f < snd (gather items h))%nat) (own_fields items h)
  /\ (h <= snd (gather items h))%nat
  /\ map fst (snd (fst (gather items h))) = map fst items.
Proof.
  unfold own_fields. revert h.
  induction items as [| [fname a] items IH]; intros h.
  - simpl. repeat split; constructor.
  - destruct a as [k | o | v | g]; simpl.
    + destruct (gather items (S (S h))) as [[fields ns] h'] eqn:Hg.
      destruct (IH (S (S h))) as (H1 & H2 & H3 & H4). rewrite Hg in H1, H2, H3, H4.
      simpl in *. split; [constructor; [split; reflexivity | exact H1] |].
      split; [constructor; [simpl; lia |] |].
      * eapply Forall_impl; [exact H2 |]. simpl. intros f Hf. lia.
      * split; [lia | f_equal; exact H4].
    + destruct (gather items (S h)) as [[fields ns] h'] eqn:Hg.
      destruct (IH (S h)) as (H1 & H2 & H3 & H4). rewrite Hg in H1, H2, H3, H4.
      simpl in *. split; [constructor; [split; reflexivity | exact H1] |].
      split; [constructor; [simpl; lia |] |].
      * eapply Forall_impl; [exact H2 |]. simpl. intros f Hf. lia.
      * split; [lia | f_equal; exact H4].
    + destruct (gather items h) as [[fields ns] h'] eqn:Hg.
      destruct (IH h) as (H1 & H2 & H3 & H4). rewrite Hg in H1, H2, H3, H4.
      simpl in *. split; [exact H1 |]. split; [exact H2 |].
      split; [exact H3 | f_equal; exact H4].
    + destruct (gather items h) as [[fields ns] h'] eqn:Hg.
      destruct (IH h) as (H1 & H2 & H3 & H4). rewrite Hg in H1, H2, H3, H4.
      simpl in *. split; [exact H1 |]. split; [exact H2 |].
      split; [exact H3 | f_equal; exact H4].
Qed.

Lemma own_fields_names (items : list (string * attr)) (h : heap) :
  map name (own_fields items h)
  = map fst (List.filter (fun kv => is_field (snd kv)) items).
Proof.
  destruct (gather_spec items h) as [H _].
  induction H as [| kv f kvs fs [Hname _] _ IH]; simpl; [reflexivity |].
  rewrite Hname, IH. reflexivity.
Qed.

Lemma NoDup_map_filter {A B : Type} (g : A -> B) (p : A -> bool) (l : list A) :
  List.NoDup (map g l) -> List.NoDup (map g (List.filter p l)).
Proof.
  induction l as [| x l IH]; simpl; intros Hnd; [constructor |].
  apply List.NoDup_cons_iff in Hnd as [Hx Hnd]. destruct (p x); simpl; [| auto].
  constructor; [| auto]. intros Hin. apply Hx.
  apply in_map_iff in Hin as (y & Hy & Hin). apply filter_In in Hin as [Hin _].
  apply in_map_iff. eauto.
Qed.

Lemma exec_body_keys (body : list (string * rhs)) (ns : OrderedDict attr) (h : heap) :
  List.NoDup (map fst ns) -> List.NoDup (map fst (fst (exec_body body ns h))).
Proof.
  revert ns h. induction body as [| [x [k | a]] body IH]; intros ns h Hnd; simpl.
  - exact Hnd.
  - apply IH. apply od_set_keys_NoDup. exact Hnd.
  - apply IH. apply od_set_keys_NoDup. exact Hnd.
Qed.

Lemma inherited_fields_concat (bases : list Class) :
  inherited_fields bases = concat (map _struct (List.filter is_MetaStruct bases)).
Proof.
  unfold inherited_fields. induction bases as [| b bases IH]; simpl; [reflexivity |].
  rewrite IH. destruct (is_MetaStruct b); reflexivity.
Qed.

Lemma type_new_raises (clsname : string) (bases : list Class) (dict : OrderedDict attr)
    (h : heap) (e : exn) :
  fst (type_new clsname bases dict h) = Raise e -> exists msg, e = TypeError msg.
Proof.
  unfold type_new. lazy zeta.
  match goal with |- context [has_dup_ids ?ids] => destruct (has_dup_ids ids) end.
  - cbn [fst]. intros H. injection H as <-. eauto.
  - match goal with |- context [mro_merge ?n ?seqs] => destruct (mro_merge n seqs) end;
      cbn [fst].
    + discriminate.
    + intros H. injection H as <-. eauto.
Qed.

(** The result of [MetaStruct.__new__], by cases on the names of the merged
    schema. *)
Lemma MetaStruct_new_cases (clsname : string) (bases : list Class)
    (namespace : OrderedDict attr) (h : heap) :
  let names := map name (merged_fields bases namespace h) in
  (~ List.NoDup names /\
   collided_names (Counter names) <> [] /\
   fst (MetaStruct_new clsname bases namespace h)
   = Raise (AttributeError (collision_message clsname (collided_names (Counter names)))))
  \/ (List.NoDup names /\
      match type_new clsname bases (snd (fst (gather namespace h))) (snd (gather namespace h)) with
      | (Ok c0, h') =>
          MetaStruct_new clsname bases namespace h
          = (Ok {| cls_id := cls_id c0; cls_name := cls_name c0; cls_dict := cls_dict c0;
                   cls_ancestors := cls_ancestors c0; is_MetaStruct := is_MetaStruct c0;
                   _struct := merged_fields bases namespace h; _signature := names |}, h')
      | (Raise e, h') => MetaStruct_new clsname bases namespace h = (Raise e, h')
      end).
Proof.
  intros names. unfold MetaStruct_new.
  assert (Hfields : (if attr_truthy (default (AValue (VBool false))
                                            (od_get "_inherit_fields" namespace))
                     then inherited_fields bases else []) ++ fst (fst (gather namespace h))
                    = merged_fields bases namespace h) by reflexivity.
  destruct (gather namespace h) as [[own ns'] h1] eqn:Hg. simpl in Hfields. simpl.
  rewrite Hfields. fold names.
  destruct (collided_names (Counter names)) as [| k l] eqn:Hc.
  - right. split; [apply collided_names_nil; exact Hc |]. simpl.
    destruct (type_new clsname bases ns' h1) as [[c0 | e] h']; reflexivity.
  - left. split; [| split; [discriminate | reflexivity]].
    intros Hnd. apply collided_names_nil in Hnd. congruence.
Qed.

Lemma MetaStruct_new_Ok (clsname : string) (bases : list Class)
    (namespace : OrderedDict attr) (h : heap) (c : Class) (h' : heap) :
  MetaStruct_new clsname bases namespace h = (Ok c, h') ->
  _struct c = merged_fields bases namespace h
  /\ schema_ok c
  /\ exists c0, type_new clsname bases (snd (fst (gather namespace h))) (snd (gather namespace h))
                = (Ok c0, h')
       /\ cls_id c = cls_id c0 /\ cls_ancestors c = cls_ancestors c0.
Proof.
  intros Hnew. destruct (MetaStruct_new_cases clsname bases namespace h) as [H | H].
  - destruct H as (_ & _ & H). rewrite Hnew in H. discriminate.
  - destruct H as [Hnd H].
    destruct (type_new clsname bases _ _) as [[c0 | e] h''].
    + rewrite Hnew in H. injection H as -> ->. simpl.
      split; [reflexivity |]. split; [split; [exact Hnd | reflexivity] |]. eauto.
    + rewrite Hnew in H. discriminate.
Qed.

(** C7, a declaration on which the claim fails: two fields named [x]
    declared in one class body raise nothing; the second binding replaces
    the first and the type is defined with the single field [x]. *)
Lemma Twice_is_defined :
  exists c h, Twice_stmt = (Ok c, h) /\ map name (_struct c) = ["x"]
              /\ _signature c = ["x"].
Proof. eexists _, _. split; [reflexivity |]. split; reflexivity. Qed.

(** C7, amended: if a field name appears more than once in the merged
    schema of a type (the inherited fields followed by the fields of the
    namespace of its body), the definition of the type fails with the error
    that lists every colliding name, each once.  The names a class body
    declares never collide with one another, since the namespace binds a
    name once, so that a class statement which does not inherit fields never
    raises this error. *)
Theorem MetaStruct_new_collisions (clsname : string) (bases : list Class) :
  (forall namespace h,
     ~ List.NoDup (map name (merged_fields bases namespace h)) ->
     exists collided,
       fst (MetaStruct_new clsname bases namespace h)
       = Raise (AttributeError
                  ("Struct " +:+ clsname +:+ " has colliding field name(s): "
                   +:+ join ", " collided))
       /\ collided <> [] /\ List.NoDup collided
       /\ forall k, In k collided <->
            (1 < count_occ string_dec (map name (merged_fields bases namespace h)) k)%nat)
  /\ (forall body h0,
        List.NoDup
          (map name (own_fields (fst (exec_body body (MetaStruct_prepare clsname bases) h0))
                                (snd (exec_body body (MetaStruct_prepare clsname bases) h0))))
        /\ (inherit_flag (fst (exec_body body (MetaStruct_prepare clsname bases) h0)) = false ->
            forall msg, fst (class_stmt clsname bases body h0) <> Raise (AttributeError msg))).
Proof.
  split.
  - intros namespace h Hdup.
    destruct (MetaStruct_new_cases clsname bases namespace h) as [H | H].
    + destruct H as (_ & Hne & Hraise).
      exists (collided_names (Counter (map name (merged_fields bases namespace h)))).
      split; [exact Hraise |]. split; [exact Hne |]. apply collided_names_spec.
    + destruct H as [Hnd _]. contradiction.
  - intros body h0.
    assert (Hown : List.NoDup
              (map name (own_fields (fst (exec_body body (MetaStruct_prepare clsname bases) h0))
                                    (snd (exec_body body (MetaStruct_prepare clsname bases) h0))))).
    { rewrite own_fields_names. apply NoDup_map_filter. apply exec_body_keys. constructor. }
    split; [exact Hown |].
    intros Hflag msg. unfold class_stmt.
    destruct (exec_body body (MetaStruct_prepare clsname bases) h0) as [namespace h] eqn:Hb.
    simpl in Hown, Hflag.
    destruct (MetaStruct_new_cases clsname bases namespace h) as [H | H].
    + destruct H as (Hdup & _). exfalso. apply Hdup.
      unfold merged_fields. rewrite Hflag. exact Hown.
    + destruct H as [_ H].
      destruct (type_new clsname bases (snd (fst (gather namespace h))) (snd (gather namespace h)))
        as [[c0 | e] h'] eqn:Ht; rewrite H; simpl; [discriminate |].
      destruct (type_new_raises clsname bases (snd (fst (gather namespace h)))
                  (snd (gather namespace h)) e) as [m ->]; [rewrite Ht; reflexivity |].
      discriminate.
Qed.

Example Clash_raises :
  fst Clash_stmt = Raise (AttributeError "Struct Clash has colliding field name(s): x, z").
Proof. reflexivity. Qed.

(** C8: the schema a successful type definition freezes is, with
    [_inherit_fields] true, the schemas of the bases that are Struct types,
    in the order of the bases, followed by the fields of the class body in
    the order of its namespace, each under the name it is bound to and of
    the class it was declared with; without the flag, the own fields only. *)
Theorem MetaStruct_new_schema (clsname : string) (bases : list Class)
    (namespace : OrderedDict attr) (h : heap) (c : Class) (h' : heap) :
  MetaStruct_new clsname bases namespace h = (Ok c, h') ->
  _struct c
  = (if inherit_flag namespace then concat (map _struct (List.filter is_MetaStruct bases))
     else []) ++ own_fields namespace h
  /\ (od_get "_inherit_fields" namespace = None -> _struct c = own_fields namespace h)
  /\ Forall2 (fun kv f => name f = fst kv /\ declared_class (snd kv) = Some (fclass f))
             (List.filter (fun kv => is_field (snd kv)) namespace) (own_fields namespace h)
  /\ _signature c = map name (_struct c).
Proof.
  intros Hnew. destruct (MetaStruct_new_Ok _ _ _ _ _ _ Hnew) as (Hs & [_ Hsig] & _).
  split; [| split; [| split]].
  - rewrite Hs. unfold merged_fields. rewrite inherited_fields_concat. reflexivity.
  - intros Hnone. rewrite Hs. unfold merged_fields, inherit_flag. rewrite Hnone. reflexivity.
  - apply gather_spec.
  - exact Hsig.
Qed.

(** A witness of C8 on [Point3], which inherits the fields of [Point]. *)
Lemma MetaStruct_new_schema_witness :
  MetaStruct_new "Point3" [Point]
    [("_inherit_fields", AValue (VBool true));
     ("z", AField {| fid := 7; name := ""; fclass := Field_class |})] 8%nat
  = (Ok Point3, 10%nat)
  /\ _struct Point3
     = [Point_x; Point_y; {| fid := 8; name := "z"; fclass := Field_class |}]
  /\ _signature Point3 = ["x"; "y"; "z"].
Proof.
  split; [reflexivity |].
  destruct (MetaStruct_new_schema "Point3" [Point]
              [("_inherit_fields", AValue (VBool true));
               ("z", AField {| fid := 7; name := ""; fclass := Field_class |})]
              8%nat Point3 10%nat eq_refl) as (Hs & _ & _ & Hsig).
  split; [exact Hs | exact Hsig].
Defined.

(** ** Subclasses and identity of descriptors *)


Lemma mro_candidate_head (heads all : list (list ClassEntry)) (c : ClassEntry) :
  mro_candidate heads all = Some c -> exists t, In (c :: t) heads.
Proof.
  induction heads as [| s heads IH]; simpl; [discriminate |].
  destruct s as [| c' t].
  - intros H. destruct (IH H) as [t' Ht']. eauto.
  - destruct (forallb _ all).
    + intros H. injection H as ->. eauto.
    + intros H. destruct (IH H) as [t' Ht']. eauto.
Qed.

Lemma mro_drop_length (c : ClassEntry) (l : list (list ClassEntry)) :
  (length (concat (map (mro_drop c) l)) <= length (concat l))%nat
  /\ forall t, In (c :: t) l ->
       (length (concat (map (mro_drop c) l)) < length (concat l))%nat.
Proof.
  induction l as [| s l [IHle IHlt]]; simpl.
  - split; [lia | intros t []].
  - rewrite !length_app.
    assert (Hs : (length (mro_drop c s) <= length s)%nat).
    { destruct s as [| e s']; simpl; [lia |]. destruct (Nat.eqb _ _); simpl; lia. }
    split; [lia |]. intros t [-> | Hin].
    + simpl. rewrite Nat.eqb_refl. lia.
    + specialize (IHlt t Hin). lia.
Qed.

Lemma filter_nonempty_length {A : Type} (l : list (list A)) :
  length (concat (List.filter nonempty l)) = length (concat l).
Proof.
  induction l as [| s l IH]; simpl; [reflexivity |].
  destruct s; simpl; [exact IH |]. rewrite !length_app, IH. reflexivity.
Qed.

(** The merge does not depend on the fuel once the fuel exceeds the number
    of entries to merge, which is the fuel [type_new] gives it: when it
    fails, it is for want of a candidate. *)
Lemma mro_merge_fuel (n m : nat) (seqs : list (list ClassEntry)) :
  (length (concat seqs) < n)%nat -> (length (concat seqs) < m)%nat ->
  mro_merge n seqs = mro_merge m seqs.
Proof.
  revert m seqs. induction n as [| n IH]; intros m seqs Hn Hm; [lia |].
  destruct m as [| m]; [lia |]. cbn [mro_merge].
  pose proof (filter_nonempty_length seqs) as Hlive.
  destruct (List.filter nonempty seqs) as [| l ls]; [reflexivity |].
  destruct (mro_candidate (l :: ls) (l :: ls)) as [c |] eqn:Hc; [| reflexivity].
  destruct (mro_candidate_head _ _ _ Hc) as [t Ht].
  destruct (mro_drop_length c (l :: ls)) as [_ Hlt]. specialize (Hlt t Ht).
  rewrite (IH m (map (mro_drop c) (l :: ls))) by lia. reflexivity.
Qed.












(** ** Typed fields *)

Import Typed.

Lemma check_items_typed (k : pytype) (items : list value) (i : nat) :
  Forall (fun x => has_type x k = true) items -> check_items k i items = None.
Proof.
  intros H. revert i. induction H as [| x items Hx _ IH]; intros i; simpl.
  - reflexivity.
  - rewrite Hx. apply IH.
Qed.

Lemma first_duplicate_sound (items seen : list value) (i : nat) :
  match first_duplicate seen i items with
  | Some (x, j) =>
      exists pre post, items = pre ++ x :: post /\ j = (i + length pre)%nat
        /\ existsb (fun s => py_eq s x) (seen ++ pre) = true
        /\ forall pre' y rest, pre = pre' ++ y :: rest ->
             existsb (fun s => py_eq s y) (seen ++ pre') = false
  | None =>
      forall pre y post, items = pre ++ y :: post ->
        existsb (fun s => py_eq s y) (seen ++ pre) = false
  end.
Proof.
  revert seen i. induction items as [| x items IH]; intros seen i; simpl.
  - intros [| ? ?] y post H; discriminate H.
  - destruct (existsb (fun s => py_eq s x) seen) eqn:Hseen.
    + exists [], items. split; [reflexivity |]. split; [simpl; lia |].
      split; [rewrite app_nil_r; exact Hseen |].
      intros [| ? ?] y rest H; discriminate H.
    + specialize (IH (seen ++ [x]) (S i)).
      destruct (first_duplicate (seen ++ [x]) (S i) items) as [[x' j] |].
      * destruct IH as (pre & post & -> & -> & Hdup & Hfree).
        exists (x :: pre), post. split; [reflexivity |]. split; [simpl; lia |].
        split; [rewrite <- app_assoc in Hdup; exact Hdup |].
        intros [| z pre'] y rest H; simpl in H; injection H as <- H.
        -- rewrite app_nil_r. exact Hseen.
        -- specialize (Hfree pre' y rest H). rewrite <- app_assoc in Hfree. exact Hfree.
      * intros [| z pre] y post H; simpl in H; injection H as <- H.
        -- rewrite app_nil_r. exact Hseen.
        -- specialize (IH pre y post H). rewrite <- app_assoc in IH. exact IH.
Qed.

Lemma first_duplicate_found (pre : list value) (x : value) (post seen : list value) (i : nat) :
  (forall pre' y rest, pre = pre' ++ y :: rest ->
     existsb (fun s => py_eq s y) (seen ++ pre') = false) ->
  existsb (fun s => py_eq s x) (seen ++ pre) = true ->
  first_duplicate seen i (pre ++ x :: post) = Some (x, (i + length pre)%nat).
Proof.
  revert seen i. induction pre as [| y pre IH]; intros seen i Hfree Hdup; simpl.
  - rewrite app_nil_r in Hdup. rewrite Hdup. f_equal. f_equal. lia.
  - pose proof (Hfree [] y pre eq_refl) as Hy. rewrite app_nil_r in Hy. rewrite Hy.
    rewrite (IH (seen ++ [y]) (S i)).
    + f_equal. f_equal. lia.
    + intros pre' z rest ->. rewrite <- app_assoc. apply (Hfree (y :: pre') z rest eq_refl).
    + rewrite <- app_assoc. exact Hdup.
Qed.

Lemma first_duplicate_none (items seen : list value) (i : nat) :
  (forall pre y post, items = pre ++ y :: post ->
     existsb (fun s => py_eq s y) (seen ++ pre) = false) ->
  first_duplicate seen i items = None.
Proof.
  revert seen i. induction items as [| x items IH]; intros seen i Hfree; simpl.
  - reflexivity.
  - pose proof (Hfree [] x items eq_refl) as Hx. rewrite app_nil_r in Hx. rewrite Hx.
    apply IH. intros pre y post ->. rewrite <- app_assoc.
    apply (Hfree (x :: pre) y post eq_refl).
Qed.

Lemma no_repeat_iff (l : list value) : no_repeat l <-> first_duplicate [] 0 l = None.
Proof.
  split.
  - intros H. apply first_duplicate_none. exact H.
  - intros H. pose proof (first_duplicate_sound l [] 0) as Hs. rewrite H in Hs. exact Hs.
Qed.

(** C9: a sequence field without duplicates, given a list or tuple whose
    items have the element type, fails with the duplicate-element failure
    for [x] at [j] exactly when [j] is the position of the first item that
    is equal to an item before it and [x] is that item (its first occurrence
    lies in the part before [j], in which nothing is repeated); it accepts
    the sequence, storing it as a tuple, exactly when nothing is repeated;
    and it fails in no other way. *)
Theorem nodups_reports_second_occurrence (k : pytype) (items : list value) (v : value) :
  v = VList items \/ v = VTuple items ->
  Forall (fun x => has_type x k = true) items ->
  (forall x j,
     validate {| kind := k; seq := true; nodups := true; opt := false |} v
     = inr (DuplicateElement x j)
     <-> exists pre post, items = pre ++ x :: post /\ j = length pre
           /\ existsb (fun s => py_eq s x) pre = true /\ no_repeat pre)
  /\ (validate {| kind := k; seq := true; nodups := true; opt := false |} v
      = inl (VTuple items) <-> no_repeat items)
  /\ (forall e,
        validate {| kind := k; seq := true; nodups := true; opt := false |} v = inr e ->
        exists x j, e = DuplicateElement x j).
Proof.
  intros Hv Htyped.
  assert (Hval : validate {| kind := k; seq := true; nodups := true; opt := false |} v
                 = match first_duplicate [] 0 items with
                   | Some (x, i) => inr (DuplicateElement x i)
                   | None => inl (VTuple items)
                   end).
  { destruct Hv as [-> | ->]; unfold validate, checktype_seq; simpl;
      rewrite (check_items_typed k items 0 Htyped);
      destruct (first_duplicate [] 0 items) as [[x i] |]; reflexivity. }
  rewrite Hval. pose proof (first_duplicate_sound items [] 0) as Hsound.
  refine (conj _ (conj _ _)).
  - intros x j. split.
    + destruct (first_duplicate [] 0 items) as [[x' j'] |]; [| discriminate].
      intros H. injection H as -> ->.
      destruct Hsound as (pre & post & Hitems & Hj & Hdup & Hfree).
      exists pre, post. split; [exact Hitems |]. split; [exact Hj |].
      split; [exact Hdup |]. intros pre' y rest Hpre. exact (Hfree pre' y rest Hpre).
    + intros (pre & post & -> & -> & Hdup & Hfree).
      rewrite (first_duplicate_found pre x post [] 0 Hfree Hdup). reflexivity.
  - split.
    + destruct (first_duplicate [] 0 items) as [[x' j'] |] eqn:Hfd; [discriminate |].
      intros _. apply no_repeat_iff. exact Hfd.
    + intros H. apply no_repeat_iff in H. rewrite H. reflexivity.
  - intros e. destruct (first_duplicate [] 0 items) as [[x' j'] |]; [| discriminate].
    intros H. injection H as <-. eauto.
Qed.

(** A witness of C9: the two sequences of the specification. *)
Lemma nodups_reports_second_occurrence_witness :
  validate int_seq_nodups (VList [VInt 5; VInt 3; VInt 5; VInt 8])
  = inr (DuplicateElement (VInt 5) 2)
  /\ validate int_seq_nodups (VList [VInt 5; VInt 3; VInt 8])
     = inl (VTuple [VInt 5; VInt 3; VInt 8]).
Proof.
  split.
  - apply (proj1 (nodups_reports_second_occurrence int_
                    [VInt 5; VInt 3; VInt 5; VInt 8] _ (or_introl eq_refl)
                    ltac:(repeat constructor))).
    exists [VInt 5; VInt 3], [VInt 8]. split; [reflexivity |]. split; [reflexivity |].
    split; [reflexivity |]. apply no_repeat_iff. reflexivity.
  - apply (proj1 (proj2 (nodups_reports_second_occurrence int_
                           [VInt 5; VInt 3; VInt 8] _ (or_introl eq_refl)
                           ltac:(repeat constructor)))).
    apply no_repeat_iff. reflexivity.
Defined.

Example duplicate_message :
  fc_coerce (TypedField_class int_seq_nodups) (VList [VInt 5; VInt 3; VInt 5; VInt 8])
  = Raise (TypeError "Duplicate element 5 at position 2").
Proof. reflexivity. Qed.

Example wrong_element_message :
  checktype_seq (VList [VInt 3; VBool true]) bool_ false = inr (WrongElement bool_ int_ 0)
  /\ message (WrongElement bool_ int_ 0)
     = "Expected sequence of bool; got sequence with int at position 0".
Proof. split; reflexivity. Qed.

Example bool_is_int_duplicate :
  validate int_seq_nodups (VList [VInt 1; VBool true]) = inr (DuplicateElement (VBool true) 1).
Proof. reflexivity. Qed.

Example Foo_accepts :
  exists s, MetaStruct_call Foo [VList [VInt 1; VInt 2]] ∅ = Ok s
            /\ getattr s (hd Point_x (_struct Foo)) = Ok (VTuple [VInt 1; VInt 2]).
Proof. eexists. split; reflexivity. Qed.

Example Foo_rejects :
  MetaStruct_call Foo [VList [VInt 1; VInt 2; VInt 1]] ∅
  = Raise (TypeError "Error constructing Foo").
Proof. reflexivity. Qed.

(** ** The flag [_immutable] along single inheritance *)

(** A class that resolves its attributes in its own body and then as its
    base does has the flag whenever the base has it: the hypothesis of the
    properties on writing and hashing holds of every type derived from
    [Struct] by single inheritance. *)
Lemma immutable_inherited (c b : Class) (imm : bool) :
  cls_ancestors c = __mro__ b -> _immutable b = Ok imm ->
  exists imm', _immutable c = Ok imm'.
Proof.
  unfold _immutable, class_getattr. intros Hanc Hb.
  unfold __mro__ at 1. rewrite Hanc. cbn [mro_lookup cls_entry ce_dict].
  destruct (od_get "_immutable" (cls_dict c)) as [a |]; [simpl; eauto |].
  destruct (mro_lookup "_immutable" (__mro__ b)) as [a |]; [simpl; eauto |].
  discriminate Hb.
Qed.

Example Struct_is_immutable : _immutable Struct = Ok true.
Proof. reflexivity. Qed.

Example Cell_is_mutable : _immutable Cell = Ok false.
Proof. reflexivity. Qed.

(** ** More of the examples *)

Example eq_unrelated :
  Struct_eq point_1_2 cell_0 = Ok NotImplemented
  /\ Struct_eq cell_0 point_1_2 = Ok NotImplemented.
Proof. split; reflexivity. Qed.

Example eq_base_to_subclass :
  Struct_eq point_1_2 alias_1_2 = Ok NotImplemented
  /\ Struct_eq alias_1_2 point_1_2 = Ok (Answer true).
Proof. split; reflexivity. Qed.

Example eq_same_class :
  Struct_eq point_1_2 point_1_2 = Ok (Answer true)
  /\ Struct_eq point_1_2 point_2_1 = Ok (Answer false).
Proof. split; reflexivity. Qed.

Example write_immutable :
  Field_set Point_x point_1_2 (VInt 7) = Raise (AttributeError "Struct is immutable").
Proof. reflexivity. Qed.

Example write_under_construction :
  exists inst', Field_set Point_x point_under_construction (VInt 7) = Ok inst'
                /\ Field_get Point_x (Some inst') = Ok (VInt 7).
Proof. eexists. split; reflexivity. Qed.

Example read_on_class :
  Field_get Point_x None = Raise (AttributeError "Cannot retrieve field from class").
Proof. reflexivity. Qed.

Example hash_mutable :
  Struct_hash cell_0 = Raise (TypeError "Cannot hash mutable Struct Cell").
Proof. reflexivity. Qed.

Example hash_under_construction :
  Struct_hash point_under_construction
  = Raise (TypeError "Cannot hash uninitialized Struct Point").
Proof. reflexivity. Qed.

Example asdict_point :
  Struct_asdict point_1_2 = Ok [("x", VInt 1); ("y", VInt 2)].
Proof. reflexivity. Qed.

Example replace_one_field :
  Struct_replace point_1_2 {[ "y" := VInt 1 ]} ≫= (fun s => Struct_iter s)
  = Ok [VInt 1; VInt 1].
Proof. reflexivity. Qed.

Example replace_unknown_field :
  Struct_replace point_1_2 {[ "z" := VInt 1 ]} = Raise (TypeError "Error constructing Point").
Proof. reflexivity. Qed.

(** ** The cases of [struct/test_type.py] on the validator *)

Example checktype_cases :
  checktype (VStr "a") str_ = None
  /\ checktype (VBool true) int_ = None
  /\ checktype VNone int_ = Some (WrongType int_ NoneType)
  /\ message (WrongType int_ NoneType) = "Expected int; got NoneType".
Proof. repeat split; reflexivity. Qed.

Example checktype_seq_cases :
  checktype_seq (VList []) str_ false = inl []
  /\ checktype_seq (VList [VInt 3; VBool true]) int_ false = inl [VInt 3; VBool true]
  /\ checktype_seq (VBool true) bool_ false = inr (NotASequence bool_ bool_)
  /\ message (NotASequence bool_ bool_)
     = "Expected sequence of bool; got bool instead of sequence"
  /\ checktype_seq (VStr "abc") str_ false = inr (SingleString str_)
  /\ checktype_seq (VList [VInt 5; VInt 3; VInt 5; VInt 8]) int_ false
     = inl [VInt 5; VInt 3; VInt 5; VInt 8]
  /\ checktype_seq (VList [VInt 5; VInt 3; VInt 5; VInt 8]) int_ true
     = inr (DuplicateElement (VInt 5) 2).
Proof. repeat split; reflexivity. Qed.

(** ** Types that keep the values they are constructed from *)

(** Plain [Field] descriptors store any value as given and, the value being
    one of those above, find it equal to itself. *)
Lemma plain_fields_accepted (c : Class) (vals : list value) :
  Forall (fun f => fclass f = Field_class) (_struct c) ->
  length vals = length (_struct c) ->
  accepted_unchanged c vals.
Proof.
  unfold accepted_unchanged. intros Hplain. revert vals.
  induction Hplain as [| f fields Hf _ IH]; intros [| v vals] Hlen; simpl in Hlen;
    try discriminate.
  - constructor.
  - constructor; [| apply IH; congruence].
    rewrite Hf. split; [reflexivity | apply py_eq_refl].
Qed.

(** A class without [__init__] of its own or inherited has the default one,
    which keeps the values. *)
Lemma default_init_keeps (c : Class) (args : list value) (kargs : gmap string value) :
  mro_lookup "__init__" (__mro__ c) = None -> init_keeps c args kargs.
Proof. intros Hnone d. unfold class_init. rewrite Hnone. reflexivity. Qed.

(** * Further properties of the module *)

(** ** What construction leaves behind *)



(** [Struct.__new__] once its own arguments are bound. *)
Lemma Struct_new_body (c : Class) (args : list value) (kargs : gmap string value) :
  kargs !! "cls" = None ->
  Struct_new c args kargs
  = match boundargs ← Signature_bind (_signature c) args kargs ∅;
          set_fields (_struct c) boundargs
            {| inst_class := c; inst_dict := ∅; _initialized := false |} with
    | Raise (TypeError _) => Raise (TypeError ("Error constructing " +:+ cls_name c))
    | r => r
    end.
Proof. intros H. unfold Struct_new. rewrite (bind_first_None _ _ _ H). reflexivity. Qed.






(** ** Binding the arguments of the constructor *)


(** Binding succeeds exactly when there are no more positional arguments
    than parameters and the keywords are the names of the parameters that
    the positional arguments leave over. *)
Lemma Signature_bind_Ok_iff (params : list string) (args : list value)
    (kargs bound : gmap string value) :
  List.NoDup params ->
  (exists m, Signature_bind params args kargs bound = Ok m)
  <-> (length args <= length params)%nat
      /\ forall k, is_Some (kargs !! k) <-> In k (skipn (length args) params).
Proof.
  revert args kargs bound.
  induction params as [| p params IH]; intros [| a args] kargs bound Hnd; simpl.
  - destruct (decide (kargs = ∅)) as [-> | Hne].
    + split; [| eauto]. intros _. split; [lia |]. intros k. rewrite lookup_empty.
      split; [intros [? H]; discriminate | intros []].
    + split; [intros [m H]; discriminate |]. intros [_ Hk]. exfalso. apply Hne.
      apply map_empty. intros k. apply eq_None_not_Some. intros Hs. exact (proj1 (Hk k) Hs).
  - split; [intros [m H]; discriminate | intros [H _]; lia].
  - apply List.NoDup_cons_iff in Hnd as [Hp Hnd].
    destruct (kargs !! p) as [v |] eqn:Hv.
    + split.
      * intros (m & Hm).
        destruct (proj1 (IH [] (delete p kargs) (<[p := v]> bound) Hnd)
                        (ex_intro _ m Hm)) as [_ Hk]. simpl in Hk.
        split; [lia |]. intros k. split.
        -- intros Hs. destruct (decide (p = k)) as [-> | Hne]; [left; reflexivity |].
           right. apply Hk. rewrite lookup_delete_ne by exact Hne. exact Hs.
        -- intros [<- | Hin]; [eauto |].
           apply Hk in Hin. destruct (decide (p = k)) as [-> | Hne]; [eauto |].
           rewrite lookup_delete_ne in Hin by exact Hne. exact Hin.
      * intros [_ Hk]. apply (IH [] (delete p kargs) (<[p := v]> bound) Hnd).
        split; [simpl; lia |]. simpl. intros k. split.
        -- intros Hs. destruct (decide (p = k)) as [-> | Hne].
           ++ rewrite lookup_delete_eq in Hs. destruct Hs as [? Hs]. discriminate.
           ++ rewrite lookup_delete_ne in Hs by exact Hne.
              apply Hk in Hs as [Hs | Hs]; [contradiction | exact Hs].
        -- intros Hin. rewrite lookup_delete_ne by (intros ->; contradiction).
           apply Hk. right. exact Hin.
    + split; [intros [m H]; discriminate |]. intros [_ Hk].
      destruct (proj2 (Hk p) (or_introl eq_refl)) as [v Hv']. congruence.
  - apply List.NoDup_cons_iff in Hnd as [Hp Hnd].
    destruct (kargs !! p) as [v |] eqn:Hv.
    + split; [intros [m H]; discriminate |]. intros [_ Hk]. exfalso. apply Hp.
      assert (Hin : In p (skipn (length args) params)) by (apply Hk; eauto).
      rewrite <- (firstn_skipn (length args) params). apply in_or_app. right. exact Hin.
    + rewrite (IH args kargs (<[p := a]> bound) Hnd). split; intros [Hl Hk]; split;
        try lia; exact Hk.
Qed.

Lemma combine_lookup_None (params : list string) (args : list value) (p : string) :
  ~ In p params -> (list_to_map (combine params args) : gmap string value) !! p = None.
Proof.
  revert args. induction params as [| q params IH]; intros [| a args] Hp; simpl;
    try apply lookup_empty.
  rewrite lookup_insert_ne by (intros ->; apply Hp; left; reflexivity).
  apply IH. intros Hin. apply Hp. right. exact Hin.
Qed.

(** What binding returns: the positional arguments under the names of the
    first parameters, then the keywords. *)
Lemma Signature_bind_value (params : list string) (args : list value)
    (kargs bound m : gmap string value) :
  List.NoDup params ->
  Signature_bind params args kargs bound = Ok m ->
  m = (list_to_map (combine params args) ∪ kargs) ∪ bound.
Proof.
  revert args kargs bound.
  induction params as [| p params IH]; intros [| a args] kargs bound Hnd; simpl.
  - destruct (decide (kargs = ∅)) as [-> | Hne]; [| discriminate].
    intros H. injection H as <-. rewrite !(left_id_L ∅ (∪)). reflexivity.
  - discriminate.
  - apply List.NoDup_cons_iff in Hnd as [Hp Hnd].
    destruct (kargs !! p) as [v |] eqn:Hv; [| discriminate].
    intros H. apply (IH _ _ _ Hnd) in H. rewrite combine_nil in H. simpl in H.
    rewrite H, !(left_id_L ∅ (∪)).
    rewrite <- insert_union_r by apply lookup_delete_eq.
    rewrite insert_union_l, insert_delete_id by exact Hv. reflexivity.
  - apply List.NoDup_cons_iff in Hnd as [Hp Hnd].
    destruct (kargs !! p) as [v |] eqn:Hv; [discriminate |].
    intros H. apply (IH _ _ _ Hnd) in H. rewrite H.
    rewrite <- insert_union_r.
    + rewrite !insert_union_l. reflexivity.
    + apply lookup_union_None_2; [apply combine_lookup_None; exact Hp | exact Hv].
Qed.






Lemma list_to_map_is_Some (l : list (string * value)) (k : string) :
  is_Some ((list_to_map l : gmap string value) !! k) <-> In k (map fst l).
Proof.
  induction l as [| [q v] l IH]; simpl.
  - rewrite lookup_empty. split; [intros [? H]; discriminate | intros []].
  - destruct (decide (q = k)) as [-> | Hne].
    + rewrite lookup_insert_eq. split; [auto | eauto].
    + rewrite lookup_insert_ne by exact Hne. rewrite IH. tauto.
Qed.

Lemma map_fst_combine {A B : Type} (l : list A) (l' : list B) :
  length l = length l' -> map fst (combine l l') = l.
Proof.
  revert l'. induction l as [| x l IH]; intros [| y l'] Hlen; simpl in *;
    try discriminate; [reflexivity |].
  rewrite IH by congruence. reflexivity.
Qed.

(** X3: passing the last arguments by keyword instead of by position makes
    no difference to [Struct.__new__], unless one of them is named [cls]:
    with the first [n] values given positionally and the others under the
    names of their fields, none of which is [cls], it behaves as with all
    of them given positionally; a value given under the name [cls] is
    refused. *)
Theorem Struct_new_keywords (c : Class) (vals : list value) (n : nat) :
  List.NoDup (_signature c) -> length vals = length (_signature c) ->
  (n <= length vals)%nat ->
  (~ In "cls" (skipn n (_signature c)) ->
   Struct_new c (firstn n vals) (list_to_map (skipn n (combine (_signature c) vals)))
   = Struct_new c vals ∅)
  /\ (In "cls" (skipn n (_signature c)) ->
      Struct_new c (firstn n vals) (list_to_map (skipn n (combine (_signature c) vals)))
      = Raise (TypeError "__new__() got multiple values for argument 'cls'")).
Proof.
  intros Hnd Hlen Hn.
  set (params := _signature c) in *.
  set (K := (list_to_map (skipn n (combine params vals)) : gmap string value)).
  assert (HK : forall k, is_Some (K !! k) <-> In k (skipn n params)).
  { intros k. unfold K. rewrite list_to_map_is_Some, <- skipn_map, map_fst_combine by lia.
    tauto. }
  split.
  - intros Hcls.
    destruct (proj2 (Signature_bind_Ok_iff params vals ∅ ∅ Hnd)) as [m1 Hm1].
    { split; [lia |]. intros k. rewrite skipn_all2 by lia. rewrite lookup_empty.
      split; [intros [? H]; discriminate | intros []]. }
    destruct (proj2 (Signature_bind_Ok_iff params (firstn n vals) K ∅ Hnd)) as [m2 Hm2].
    { rewrite length_firstn, Nat.min_l by exact Hn. split; [lia |]. exact HK. }
    assert (Hsame : m2 = m1).
    { rewrite (Signature_bind_value _ _ _ _ _ Hnd Hm1),
        (Signature_bind_value _ _ _ _ _ Hnd Hm2).
      rewrite !(right_id_L ∅ (∪)). unfold K.
      rewrite (combine_firstn_r params (firstn n vals)).
      rewrite length_firstn, Nat.min_l by exact Hn.
      rewrite <- combine_firstn, <- list_to_map_app, firstn_skipn. reflexivity. }
    rewrite (Struct_new_body c vals ∅ (lookup_empty _)).
    rewrite (Struct_new_body c (firstn n vals) K).
    + fold params. rewrite Hm1, Hm2, Hsame. reflexivity.
    + apply eq_None_not_Some. intros H. apply Hcls, HK. exact H.
  - intros Hcls. unfold Struct_new. fold params. fold K.
    rewrite (bind_first_Some _ _ K); [reflexivity |]. apply HK. exact Hcls.
Qed.

(** A witness of X3: [Point(1, y=2)] is [Point(1, 2)], and
    [Struct.__new__(Enrol, cls='math')] is refused. *)
Lemma Struct_new_keywords_witness :
  Struct_new Point [VInt 1] {[ "y" := VInt 2 ]} = Struct_new Point [VInt 1; VInt 2] ∅
  /\ Struct_new Enrol [] {[ "cls" := VStr "math" ]}
     = Raise (TypeError "__new__() got multiple values for argument 'cls'").
Proof.
  split.
  - apply (proj1 (Struct_new_keywords Point [VInt 1; VInt 2] 1 (proj1 Point_schema_ok)
                    eq_refl (le_S 1 1 (le_n 1)))).
    simpl. intros [H | []]. discriminate H.
  - apply (proj2 (Struct_new_keywords Enrol [VStr "math"] 0 (proj1 Enrol_schema_ok)
                    eq_refl (le_S 0 0 (le_n 0)))).
    left. reflexivity.
Defined.

(** ** Iteration, the mapping, the exported pair and the text *)

Lemma od_set_fresh {V : Type} (k : string) (v : V) (d : OrderedDict V) :
  ~ In k (map fst d) -> od_set k v d = d ++ [(k, v)].
Proof.
  induction d as [| [k' v'] d IH]; simpl; intros Hk; [reflexivity |].
  destruct (String.eqb k k') eqn:Heq.
  - apply String.eqb_eq in Heq. subst k'. exfalso. apply Hk. left. reflexivity.
  - rewrite IH by tauto. reflexivity.
Qed.

Lemma fold_od_set_distinct {V : Type} (items d : OrderedDict V) :
  List.NoDup (map fst d ++ map fst items) ->
  fold_left (fun d kv => od_set (fst kv) (snd kv) d) items d = d ++ items.
Proof.
  revert d. induction items as [| [k v] items IH]; intros d Hnd; simpl.
  - rewrite app_nil_r. reflexivity.
  - rewrite od_set_fresh.
    + rewrite IH; [rewrite <- app_assoc; reflexivity |].
      rewrite map_app, <- app_assoc. exact Hnd.
    + simpl in Hnd. apply List.NoDup_remove_2 in Hnd. intros Hin. apply Hnd.
      apply in_or_app. left. exact Hin.
Qed.

Lemma collect_pair_Raise {A B C : Type} (g : A -> result B) (k : A -> B -> C)
    (xs : list A) (e : exn) :
  collect g xs = Raise e -> collect (fun x => y ← g x; Ok (k x y)) xs = Raise e.
Proof.
  induction xs as [| x xs IH]; simpl; [discriminate |].
  destruct (g x) as [y | e']; simpl; [| intros H; injection H as ->; reflexivity].
  destruct (collect g xs) as [ys | e']; simpl; [discriminate |].
  intros H. rewrite (IH H). reflexivity.
Qed.

Lemma collect_pair_Ok {A B C : Type} (g : A -> result B) (k : A -> B -> C)
    (xs : list A) (ys : list B) :
  collect g xs = Ok ys ->
  collect (fun x => y ← g x; Ok (k x y)) xs = Ok (map (fun xy => k (fst xy) (snd xy))
                                                     (combine xs ys)).
Proof.
  revert ys. induction xs as [| x xs IH]; intros ys; simpl.
  - intros H. injection H as <-. reflexivity.
  - destruct (g x) as [y | e]; simpl; [| discriminate].
    destruct (collect g xs) as [ys' | e]; simpl; [| discriminate].
    intros H. injection H as <-. rewrite (IH ys' eq_refl). reflexivity.
Qed.

Lemma combine_map_l {A B C : Type} (g : A -> C) (l : list A) (l' : list B) :
  combine (map g l) l' = map (fun xy => (g (fst xy), snd xy)) (combine l l').
Proof.
  revert l'. induction l as [| x l IH]; intros [| y l']; simpl; try reflexivity.
  rewrite IH. reflexivity.
Qed.

(** X4: the views of an instance agree.  If iterating over it yields
    [vals], these are as many as [__len__] says, [__reduce_ex__] exports
    them with the class, [_asdict] maps the field names to them in schema
    order (the names being distinct) and [_fmt_helper] renders them in that
    order as [name=fmt(value)] inside the name of the class; if iterating
    raises, because a field is not stored, the three raise the same
    exception. *)
Theorem Struct_views_agree (s : Instance) :
  (forall vals, Struct_iter s = Ok vals ->
     length vals = Struct_len s
     /\ Struct_reduce_ex s = Ok (inst_class s, vals)
     /\ (List.NoDup (map name (_struct (inst_class s))) ->
         Struct_asdict s = Ok (combine (map name (_struct (inst_class s))) vals))
     /\ forall fmt,
          Struct_fmt_helper s fmt
          = Ok (cls_name (inst_class s) +:+ "("
                +:+ join ", " (map (fun fv => name (fst fv) +:+ "=" +:+ fmt (snd fv))
                                   (combine (_struct (inst_class s)) vals))
                +:+ ")"))
  /\ (forall e, Struct_iter s = Raise e ->
        Struct_reduce_ex s = Raise e /\ Struct_asdict s = Raise e
        /\ forall fmt, Struct_fmt_helper s fmt = Raise e).
Proof.
  unfold Struct_iter, Struct_len, Struct_reduce_ex, Struct_asdict, Struct_fmt_helper.
  split.
  - intros vals Hvals. split.
    + apply collect_Forall2 in Hvals. symmetry. exact (Forall2_length _ _ _ Hvals).
    + split; [rewrite Hvals; reflexivity |]. split.
      * intros Hnd.
        rewrite (collect_pair_Ok (getattr s) (fun f v => (name f, v)) _ vals Hvals).
        rewrite bind_Ok, fold_od_set_distinct.
        -- simpl. rewrite combine_map_l. reflexivity.
        -- simpl. rewrite map_map. simpl.
           apply collect_Forall2 in Hvals. apply Forall2_length in Hvals.
           rewrite <- (map_map (fun fv : Field * value => fst fv) name).
           rewrite map_fst_combine by exact Hvals. exact Hnd.
      * intros fmt.
        rewrite (collect_pair_Ok (getattr s) (fun f v => name f +:+ "=" +:+ fmt v) _ vals
                   Hvals). reflexivity.
  - intros e He. split; [rewrite He; reflexivity |]. split.
    + rewrite (collect_pair_Raise (getattr s) (fun f v => (name f, v)) _ e He). reflexivity.
    + intros fmt.
      rewrite (collect_pair_Raise (getattr s) (fun f v => name f +:+ "=" +:+ fmt v) _ e He).
      reflexivity.
Qed.



Example fmt_point :
  Struct_fmt_helper point_1_2 Typed.repr = Ok "Point(x=1, y=2)".
Proof. reflexivity. Qed.

(** ** Replacement with overrides *)





(** ** The algebra of [hash_seq] *)

Lemma lxor_small (n a b : Z) :
  0 <= n -> 0 <= a < 2 ^ n -> 0 <= b < 2 ^ n -> 0 <= Z.lxor a b < 2 ^ n.
Proof.
  intros Hn Ha Hb.
  assert (Hnonneg : 0 <= Z.lxor a b) by (apply Z.lxor_nonneg; lia).
  split; [exact Hnonneg |].
  destruct (Z.eq_dec (Z.lxor a b) 0) as [-> | Hne]; [apply Z.pow_pos_nonneg; lia |].
  apply Z.log2_lt_pow2; [lia |].
  pose proof (Z.log2_lxor a b (proj1 Ha) (proj1 Hb)) as Hlog.
  apply Z.le_lt_trans with (1 := Hlog). clear Hlog.
  assert (Hla : a = 0 \/ Z.log2 a < n).
  { destruct (Z.eq_dec a 0) as [-> | Hane]; [left; reflexivity | right].
    apply Z.log2_lt_pow2; lia. }
  assert (Hlb : b = 0 \/ Z.log2 b < n).
  { destruct (Z.eq_dec b 0) as [-> | Hbne]; [left; reflexivity | right].
    apply Z.log2_lt_pow2; lia. }
  destruct Hla as [-> | Hla], Hlb as [-> | Hlb].
  - exfalso. apply Hne. reflexivity.
  - change (Z.log2 0) with 0. pose proof (Z.log2_nonneg b). lia.
  - change (Z.log2 0) with 0. pose proof (Z.log2_nonneg a). lia.
  - lia.
Qed.

(** The exclusive-or of two signed words of [n + 1] bits is one. *)
Lemma lxor_signed (n a b : Z) :
  0 <= n -> - 2 ^ n <= a < 2 ^ n -> - 2 ^ n <= b < 2 ^ n ->
  - 2 ^ n <= Z.lxor a b < 2 ^ n.
Proof.
  intros Hn Ha Hb.
  assert (Hflip : forall x, - 2 ^ n <= x < 0 -> 0 <= Z.lnot x < 2 ^ n).
  { intros x Hx. unfold Z.lnot. rewrite <- Z.sub_1_r. lia. }
  destruct (Z.lt_ge_cases a 0) as [Hsa | Hsa], (Z.lt_ge_cases b 0) as [Hsb | Hsb].
  - rewrite <- Z.lxor_lnot_lnot.
    pose proof (lxor_small n (Z.lnot a) (Z.lnot b) Hn (Hflip a ltac:(lia)) (Hflip b ltac:(lia))).
    lia.
  - pose proof (lxor_small n (Z.lnot a) b Hn (Hflip a ltac:(lia)) ltac:(lia)) as H.
    rewrite <- Z.lnot_lxor_l in H. unfold Z.lnot in H. rewrite <- Z.sub_1_r in H. lia.
  - pose proof (lxor_small n a (Z.lnot b) Hn ltac:(lia) (Hflip b ltac:(lia))) as H.
    rewrite <- Z.lnot_lxor_r in H. unfold Z.lnot in H. rewrite <- Z.sub_1_r in H. lia.
  - pose proof (lxor_small n a b Hn ltac:(lia) ltac:(lia)). lia.
Qed.

(** X7: [hash_seq] combines hashes as a commutative group of exponent two
    does.  The hash of a concatenation is the exclusive-or of the hashes of
    the parts; a sequence followed by itself hashes to zero, as the empty
    sequence does, so that hashes occurring twice cancel; and a single hash
    is returned as it is. *)
Theorem hash_seq_app (l1 l2 : list Z) :
  hash_seq (l1 ++ l2) = Z.lxor (hash_seq l1) (hash_seq l2)
  /\ hash_seq (l1 ++ l1) = 0
  /\ hash_seq (l1 ++ l2 ++ l1) = hash_seq l2
  /\ forall h, hash_seq [h] = h.
Proof.
  assert (Happ : forall k1 k2, hash_seq (k1 ++ k2) = Z.lxor (hash_seq k1) (hash_seq k2)).
  { intros k1 k2. unfold hash_seq at 1. rewrite fold_left_app.
    fold (hash_seq k1). apply hash_seq_from. }
  split; [apply Happ |]. split; [rewrite Happ; apply Z.lxor_nilpotent |]. split.
  - rewrite !Happ, (Z.lxor_comm (hash_seq l2)), <- Z.lxor_assoc, Z.lxor_nilpotent.
    apply Z.lxor_0_l.
  - intros h. rewrite hash_seq_cons. apply Z.lxor_0_r.
Qed.

(** X8: [hash_seq] never leaves the range of hash values: if every hash of
    the sequence is a signed word of 64 bits, so is the combined hash. *)
Theorem hash_seq_in_range (seq : list Z) :
  Forall (fun h => - 2 ^ 63 <= h < 2 ^ 63) seq -> - 2 ^ 63 <= hash_seq seq < 2 ^ 63.
Proof.
  induction 1 as [| h seq Hh _ IH].
  - unfold hash_seq. simpl. lia.
  - rewrite hash_seq_cons. apply lxor_signed; [lia | exact Hh | exact IH].
Qed.

(** A witness of X8 on the hashes of [-1] and of [2]. *)
Lemma hash_seq_in_range_witness : - 2 ^ 63 <= hash_seq [-2; 2] < 2 ^ 63.
Proof.
  apply (hash_seq_in_range [-2; 2]).
  repeat constructor; lia.
Defined.

(** ** Equality and hashing agree *)


Ltac py_eq_facts :=
  repeat match goal with
         | H : Bool.eqb _ _ = true |- _ => apply Bool.eqb_prop in H
         | H : Z.eqb _ _ = true |- _ => apply Z.eqb_eq in H
         | H : String.eqb _ _ = true |- _ => apply String.eqb_eq in H
         end.

Lemma py_eq_trans (a b c : value) :
  py_eq a b = true -> py_eq b c = true -> py_eq a c = true.
Proof.
  revert b c. induction a as [| x | n | s | xs IH | xs IH] using value_nested_ind;
    intros [| y | m | t | ys | ys] [| z | k | u | zs | zs]; simpl;
    try discriminate; try reflexivity; intros H1 H2.
  all: py_eq_facts; subst;
    try apply Z.eqb_refl; try apply String.eqb_refl; try apply Bool.eqb_reflx.
  - destruct x, z; try reflexivity; discriminate.
  - revert ys zs H1 H2.
    induction IH as [| x xs' Hx _ IHxs]; intros [| y ys] [| z zs] H1 H2;
      try discriminate; try reflexivity.
    apply andb_true_iff in H1 as [H1 H1'], H2 as [H2 H2'].
    rewrite (Hx y z H1 H2), (IHxs ys zs H1' H2'). reflexivity.
  - revert ys zs H1 H2.
    induction IH as [| x xs' Hx _ IHxs]; intros [| y ys] [| z zs] H1 H2;
      try discriminate; try reflexivity.
    apply andb_true_iff in H1 as [H1 H1'], H2 as [H2 H2'].
    rewrite (Hx y z H1 H2), (IHxs ys zs H1' H2'). reflexivity.
Qed.









(** ** The class that the type builder returns *)









(** ** A subclass that does not ask for the fields of its bases *)




(** ** Writing to an instance of a mutable type *)




(** ** The flag [_immutable] of a subclass *)




(** ** Inheriting one name twice *)

Lemma count_occ_names_In (k : string) (fields : list Field) :
  In k (map name fields) -> (1 <= count_occ string_dec (map name fields) k)%nat.
Proof. intros Hin. apply (count_occ_In string_dec) in Hin. lia. Qed.

Lemma inherited_fields_app (l1 l2 : list Class) :
  inherited_fields (l1 ++ l2) = inherited_fields l1 ++ inherited_fields l2.
Proof. unfold inherited_fields. apply flat_map_app. Qed.

Lemma inherited_fields_cons (b : Class) (l : list Class) :
  is_MetaStruct b = true -> inherited_fields (b :: l) = _struct b ++ inherited_fields l.
Proof. intros Hb. unfold inherited_fields. simpl. rewrite Hb. reflexivity. Qed.

(** X16: with [_inherit_fields], a name that is a field of two of the bases,
    or of one base and of the class body, makes the definition of the type
    fail with the error that reports the name; and this whether or not the
    two bases have the field from a common ancestor, as two subclasses of
    one Struct type do. *)
Theorem shared_names_collide (clsname : string) (bases : list Class)
    (namespace : OrderedDict attr) (h : heap) (k : string) :
  inherit_flag namespace = true ->
  (exists pre b1 mid b2 post,
      bases = pre ++ b1 :: mid ++ b2 :: post
      /\ is_MetaStruct b1 = true /\ is_MetaStruct b2 = true
      /\ In k (map name (_struct b1)) /\ In k (map name (_struct b2)))
  \/ (exists b, In b bases /\ is_MetaStruct b = true
        /\ In k (map name (_struct b)) /\ In k (map name (own_fields namespace h))) ->
  exists collided,
    fst (MetaStruct_new clsname bases namespace h)
    = Raise (AttributeError (collision_message clsname collided))
    /\ In k collided.
Proof.
  intros Hflag Hshared.
  assert (Hcount : (1 < count_occ string_dec
                          (map name (merged_fields bases namespace h)) k)%nat).
  { unfold merged_fields. rewrite Hflag.
    destruct Hshared as [(pre & b1 & mid & b2 & post & -> & Hm1 & Hm2 & Hk1 & Hk2)
                        | (b & Hb & Hm & Hk & Hown)].
    - rewrite inherited_fields_app, (inherited_fields_cons b1 _ Hm1),
        inherited_fields_app, (inherited_fields_cons b2 _ Hm2).
      rewrite !map_app, !count_occ_app.
      pose proof (count_occ_names_In k _ Hk1). pose proof (count_occ_names_In k _ Hk2). lia.
    - apply in_split in Hb as (l1 & l2 & ->).
      rewrite inherited_fields_app, (inherited_fields_cons b _ Hm).
      rewrite !map_app, !count_occ_app.
      pose proof (count_occ_names_In k _ Hk). pose proof (count_occ_names_In k _ Hown). lia. }
  destruct (MetaStruct_new_cases clsname bases namespace h) as [H | H].
  - destruct H as (_ & _ & Hraise). eexists. split; [exact Hraise |].
    apply collided_names_spec. exact Hcount.
  - destruct H as [Hnd _]. exfalso.
    rewrite (NoDup_count_occ string_dec) in Hnd. specialize (Hnd k). lia.
Qed.

(** A witness of X16: [class Both(Alias, Point): _inherit_fields = True],
    both bases having the fields of [Point]. *)
Lemma shared_names_collide_witness :
  exists collided,
    fst (MetaStruct_new "Both" [Alias; Point] [("_inherit_fields", AValue (VBool true))]
           36%nat)
    = Raise (AttributeError (collision_message "Both" collided))
    /\ In "x" collided.
Proof.
  apply (shared_names_collide "Both" [Alias; Point]
           [("_inherit_fields", AValue (VBool true))] 36%nat "x" eq_refl).
  left. exists [], Alias, [], Point, [].
  split; [reflexivity |]. split; [reflexivity |]. split; [reflexivity |].
  split; left; reflexivity.
Defined.

Example Both_raises :
  fst (MetaStruct_new "Both" [Alias; Point] [("_inherit_fields", AValue (VBool true))]
         36%nat)
  = Raise (AttributeError "Struct Both has colliding field name(s): x, y").
Proof. reflexivity. Qed.
